(** * webdevtracker: the client-side derived-state logic of the view layer

    A shallow embedding of the pure and effectful logic found in the three
    theme variants of [App.js] (which agree on everything modelled here):
    course filtering, phase grouping, the course progress transitions, the
    daily log submission, the calendar month grid and the error paths of the
    mutations. *)

From Stdlib Require Import ZArith Lia List Bool Ascii String DecimalString.
From stdpp Require Import base gmap list strings fin_maps.

Local Open Scope string_scope.
Local Open Scope list_scope.

(** ** Data model *)

(** A course record as delivered by [GET /api/courses]. Only the fields the
    modelled logic reads are kept. [status] and [priority] stay strings, as
    in the source, where they are compared with [===] and [!==]; the
    backend uses the statuses "Not Started", "In Progress" and "Completed"
    and the priorities "MUST" and "Optional". *)
Record Course := mkCourse {
  course_id : string;
  title : string;
  phase : Z;
  phase_title : string;
  status : string;
  progress : Z;
  priority : string
}.

(** ** JavaScript primitives used by the view layer *)

(** [a !== b] on strings. *)
Definition str_neq (a b : string) : bool := negb (String.eqb a b).

(** Truthiness of [selectedPhase], which is [null] or a number produced by
    [parseInt]: [null] and [0] are falsy, every other integer is truthy. *)
Definition truthy_phase (selectedPhase : option Z) : bool :=
  match selectedPhase with
  | None => false
  | Some n => negb (n =? 0)%Z
  end.

(** [course.phase !== selectedPhase], a number against [null] or a number. *)
Definition phase_neq (p : Z) (selectedPhase : option Z) : bool :=
  match selectedPhase with
  | None => true
  | Some n => negb (p =? n)%Z
  end.

(** Truthiness of a string: only the empty string is falsy. *)
Definition truthy_str (s : string) : bool :=
  match s with
  | EmptyString => false
  | String _ _ => true
  end.

(** ** Filtered view *)

Module Filter.

(** The callback of [courses.filter] in [getFilteredCourses]:
    phase first, then status, then priority. *)
Definition flat_pred (selectedPhase : option Z) (statusFilter priorityFilter : string)
    (course : Course) : bool :=
  if truthy_phase selectedPhase && phase_neq (phase course) selectedPhase then false
  else if str_neq statusFilter "all" && str_neq (status course) statusFilter then false
  else if str_neq priorityFilter "all" && str_neq (priority course) priorityFilter then false
  else true.

Definition getFilteredCourses (courses : list Course) (selectedPhase : option Z)
    (statusFilter priorityFilter : string) : list Course :=
  List.filter (flat_pred selectedPhase statusFilter priorityFilter) courses.

(** The callback of [data.courses.filter] inside [CoursesView]:
    status first, then priority, then phase. *)
Definition group_pred (selectedPhase : option Z) (statusFilter priorityFilter : string)
    (c : Course) : bool :=
  if str_neq statusFilter "all" && str_neq (status c) statusFilter then false
  else if str_neq priorityFilter "all" && str_neq (priority c) priorityFilter then false
  else if truthy_phase selectedPhase && phase_neq (phase c) selectedPhase then false
  else true.

(** The specification side: a course meets the criteria when it satisfies
    every criterion that is active. The phase criterion is inactive at
    [None] (the "all phases" choice), the other two at the string "all". *)
Definition meets (selectedPhase : option Z) (statusFilter priorityFilter : string)
    (c : Course) : Prop :=
  match selectedPhase with Some p => phase c = p | None => True end /\
  (statusFilter = "all" \/ status c = statusFilter) /\
  (priorityFilter = "all" \/ priority c = priorityFilter).

#[global] Instance meets_dec sp sf pf c : Decision (meets sp sf pf c).
Proof. unfold meets. destruct sp; apply _. Defined.

End Filter.

(** ** Phase grouping *)

Module Phases.

(** The value stored under a phase number: [{ title, courses }]. *)
Record PhaseGroup := mkGroup {
  pg_title : string;
  pg_courses : list Course
}.

(** One iteration of the [forEach] in [getCoursesByPhase]. The object
    [phases] is keyed by the phase number; an entry, once created, is an
    object and hence truthy, so [!phases[course.phase]] holds exactly when
    the key is absent. [push] appends at the end of the entry's array. *)
Definition add_course (phases : gmap Z PhaseGroup) (course : Course) : gmap Z PhaseGroup :=
  let phases1 :=
    match phases !! phase course with
    | None => <[phase course := mkGroup (phase_title course) []]> phases
    | Some _ => phases
    end in
  alter (fun g => mkGroup (pg_title g) (pg_courses g ++ [course])) (phase course) phases1.

Definition getCoursesByPhase (courses : list Course) : gmap Z PhaseGroup :=
  fold_left add_course courses ∅.

(** The courses of one phase, in catalog order. *)
Definition of_phase (p : Z) (courses : list Course) : list Course :=
  List.filter (fun c => (phase c =? p)%Z) courses.

(** The group expected under a phase, in closed form: none when the phase
    has no course, else the phase's courses under the first one's title. *)
Definition group_of (p : Z) (courses : list Course) : option PhaseGroup :=
  match of_phase p courses with
  | [] => None
  | c0 :: _ => Some (mkGroup (phase_title c0) (of_phase p courses))
  end.

(** All grouped courses, group after group. *)
Definition flatten (phases : gmap Z PhaseGroup) : list Course :=
  flat_map (fun kv => pg_courses (snd kv)) (map_to_list phases).

End Phases.

(** ** Logs, planned sessions and the analytics summary *)

(** One per-course entry of the daily log form and of a stored log. *)
Record LogEntry := mkEntry {
  entry_course_id : string;
  entry_course_title : string;
  time_spent : Z;
  progress_notes : string
}.

Record DailyLog := mkLog {
  log_date : string;
  log_courses : list LogEntry;
  log_notes : string;
  log_mood : option Z;
  total_time_spent : Z
}.

Record PlannedSession := mkSession {
  session_id : string;
  session_course_id : string;
  planned_date : string;
  estimated_time : Z;
  session_notes : string
}.

Record AnalyticsSummary := mkSummary {
  total_courses : Z;
  completed_courses : Z;
  in_progress_courses : Z;
  current_streak : Z
}.

(** ** The view layer's state and effects *)

Module View.

(** Body of [POST /api/logs]. *)
Record LogPayload := mkLogPayload {
  body_date : string;
  body_courses : list LogEntry;
  body_notes : string;
  body_mood : option Z
}.

(** Body of [POST /api/planned]. *)
Record PlannedPayload := mkPlannedPayload {
  body_course_id : string;
  body_planned_date : string;
  body_estimated_time : Z;
  body_plan_notes : string
}.

Inductive Resource := RCourses | RAnalytics | RLogs | RPlanned.

(** What a handler does to the outside world, in order. [PostInit] is
    the POST to [/init-database]. *)
Inductive Event :=
  | Patch (courseId : string) (progress : Z) (status : string)
  | PostLog (body : LogPayload)
  | PostPlanned (body : PlannedPayload)
  | DeletePlanned (sessionId : string)
  | PostInit
  | Get (r : Resource)
  | Alert (msg : string)
  | ConsoleError (msg : string)
  | Confirm (msg : string).

(** The write requests. *)
Definition is_mutation (e : Event) : bool :=
  match e with
  | Patch _ _ _ | PostLog _ | PostPlanned _ | DeletePlanned _ | PostInit => true
  | _ => false
  end.

(** Any request over the network. *)
Definition is_request (e : Event) : bool :=
  match e with
  | Patch _ _ _ | PostLog _ | PostPlanned _ | DeletePlanned _ | PostInit | Get _ => true
  | _ => false
  end.

Definition is_alert (e : Event) : bool :=
  match e with Alert _ => true | _ => false end.

Definition mutations (t : list Event) : list Event := List.filter is_mutation t.
Definition requests (t : list Event) : list Event := List.filter is_request t.
Definition alerts (t : list Event) : list Event := List.filter is_alert t.

(** The backend and the user, as seen by the handlers: each answer may
    depend on everything that happened so far. [succeeds t] tells whether
    the request issued last in [t] resolves ([false]: the promise rejects),
    the [_data] fields give the body of a successful [GET], and [confirms]
    is the user's answer to [window.confirm]. *)
Record Env := mkEnv {
  succeeds : list Event -> bool;
  courses_data : list Event -> list Course;
  analytics_data : list Event -> AnalyticsSummary;
  logs_data : list Event -> list DailyLog;
  planned_data : list Event -> list PlannedSession;
  confirms : list Event -> bool
}.

(** [useState] cells of [App]. *)
Record AppState := mkApp {
  courses : list Course;
  analytics : option AnalyticsSummary;
  dailyLogs : list DailyLog;
  plannedSessions : list PlannedSession;
  showCourseDetail : option Course
}.

(** [useState] cells of [DailyTracker]. *)
Record TrackerState := mkTracker {
  selectedDate : string;
  selectedCourses : list LogEntry;
  notes : string;
  mood : option Z
}.

(** [useState] cells of [CalendarView] that the session handlers use;
    [planDate] is its [selectedDate], [null] until a day is clicked. *)
Record CalendarState := mkCalendar {
  showAddModal : bool;
  planDate : option string;
  selectedCourse : string;
  estimatedTime : Z;
  planNotes : string
}.

Record World := mkWorld {
  app : AppState;
  tracker : TrackerState;
  calendar : CalendarState;
  trace : list Event
}.

(** A handler is a state transformer over the world. *)
Definition M (A : Type) : Type := World -> A * World.

Definition ret {A} (a : A) : M A := fun w => (a, w).
Definition bind {A B} (m : M A) (k : A -> M B) : M B :=
  fun w => let (a, w1) := m w in k a w1.
Definition exec {A} (m : M A) (w : World) : World := snd (m w).

Declare Scope view_scope.
Delimit Scope view_scope with view.
Notation "'let*' x := m 'in' k" := (bind m (fun x => k))
  (at level 10, x name, m at level 100, k at level 200) : view_scope.
Notation "m ;;; k" := (bind m (fun _ => k))
  (at level 100, k at level 200, right associativity) : view_scope.
Local Open Scope view_scope.

(** A computation that issues no write request. *)
Definition silent {A} (m : M A) : Prop :=
  forall w, exists evs, trace (exec m w) = trace w ++ evs /\ mutations evs = [].

Definition emit (e : Event) : M unit :=
  fun w => (tt, mkWorld (app w) (tracker w) (calendar w) (trace w ++ [e])).

(** Issue a request and await it: [true] when it resolves. *)
Definition request (env : Env) (e : Event) : M bool :=
  fun w => let t := trace w ++ [e] in
           (succeeds env t, mkWorld (app w) (tracker w) (calendar w) t).

Definition history : M (list Event) := fun w => (trace w, w).

Definition modify_app (f : AppState -> AppState) : M unit :=
  fun w => (tt, mkWorld (f (app w)) (tracker w) (calendar w) (trace w)).
Definition modify_tracker (f : TrackerState -> TrackerState) : M unit :=
  fun w => (tt, mkWorld (app w) (f (tracker w)) (calendar w) (trace w)).
Definition modify_calendar (f : CalendarState -> CalendarState) : M unit :=
  fun w => (tt, mkWorld (app w) (tracker w) (f (calendar w)) (trace w)).
Definition read_tracker : M TrackerState := fun w => (tracker w, w).
Definition read_calendar : M CalendarState := fun w => (calendar w, w).

Definition setCourses (v : list Course) : M unit :=
  modify_app (fun a => mkApp v (analytics a) (dailyLogs a) (plannedSessions a) (showCourseDetail a)).
Definition setAnalytics (v : AnalyticsSummary) : M unit :=
  modify_app (fun a => mkApp (courses a) (Some v) (dailyLogs a) (plannedSessions a) (showCourseDetail a)).
Definition setDailyLogs (v : list DailyLog) : M unit :=
  modify_app (fun a => mkApp (courses a) (analytics a) v (plannedSessions a) (showCourseDetail a)).
Definition setPlannedSessions (v : list PlannedSession) : M unit :=
  modify_app (fun a => mkApp (courses a) (analytics a) (dailyLogs a) v (showCourseDetail a)).
Definition setShowCourseDetail (v : option Course) : M unit :=
  modify_app (fun a => mkApp (courses a) (analytics a) (dailyLogs a) (plannedSessions a) v).

Definition setSelectedCourses (v : list LogEntry) : M unit :=
  modify_tracker (fun t => mkTracker (selectedDate t) v (notes t) (mood t)).
Definition setNotes (v : string) : M unit :=
  modify_tracker (fun t => mkTracker (selectedDate t) (selectedCourses t) v (mood t)).
Definition setMood (v : option Z) : M unit :=
  modify_tracker (fun t => mkTracker (selectedDate t) (selectedCourses t) (notes t) v).

Definition setShowAddModal (v : bool) : M unit :=
  modify_calendar (fun c => mkCalendar v (planDate c) (selectedCourse c) (estimatedTime c) (planNotes c)).
Definition setSelectedCourse (v : string) : M unit :=
  modify_calendar (fun c => mkCalendar (showAddModal c) (planDate c) v (estimatedTime c) (planNotes c)).
Definition setEstimatedTime (v : Z) : M unit :=
  modify_calendar (fun c => mkCalendar (showAddModal c) (planDate c) (selectedCourse c) v (planNotes c)).
Definition setPlanNotes (v : string) : M unit :=
  modify_calendar (fun c => mkCalendar (showAddModal c) (planDate c) (selectedCourse c) (estimatedTime c) v).

(** *** The four fetches of [App]: a failure is caught and only logged. *)

Definition fetchCourses (env : Env) : M unit :=
  let* ok := request env (Get RCourses) in
  if ok then (let* t := history in setCourses (courses_data env t))
  else emit (ConsoleError "Error fetching courses:").

Definition fetchAnalytics (env : Env) : M unit :=
  let* ok := request env (Get RAnalytics) in
  if ok then (let* t := history in setAnalytics (analytics_data env t))
  else emit (ConsoleError "Error fetching analytics:").

Definition fetchDailyLogs (env : Env) : M unit :=
  let* ok := request env (Get RLogs) in
  if ok then (let* t := history in setDailyLogs (logs_data env t))
  else emit (ConsoleError "Error fetching daily logs:").

Definition fetchPlannedSessions (env : Env) : M unit :=
  let* ok := request env (Get RPlanned) in
  if ok then (let* t := history in setPlannedSessions (planned_data env t))
  else emit (ConsoleError "Error fetching planned sessions:").

(** *** Course progress *)

Definition updateCourseProgress (env : Env) (courseId : string) (progress : Z)
    (status : string) : M unit :=
  let* ok := request env (Patch courseId progress status) in
  if ok then (fetchCourses env ;;; fetchAnalytics env)
  else emit (ConsoleError "Error updating course progress:").

Definition handleStartCourse (env : Env) (course : Course) : M unit :=
  if String.eqb (status course) "Not Started"
  then updateCourseProgress env (course_id course) 5 "In Progress"
  else ret tt.

Definition handleCompleteCourse (env : Env) (course : Course) : M unit :=
  updateCourseProgress env (course_id course) 100 "Completed".

(** The status [CourseDetailModal.handleUpdate] derives from the slider. *)
Definition derived_status (progress : Z) : string :=
  if (progress >=? 100)%Z then "Completed"
  else if (progress >? 0)%Z then "In Progress"
  else "Not Started".

(** [CourseDetailModal.handleUpdate], with the modal's [progress] cell and
    its [onUpdate] prop. *)
Definition handleUpdate (progress : Z) (onUpdate : Z -> string -> M unit) : M unit :=
  let status := derived_status progress in
  onUpdate progress status.

(** The [onUpdate] closure [App] hands to the modal, which is rendered only
    while [showCourseDetail] holds a course. *)
Definition onUpdate (env : Env) (shown : Course) (progress : Z) (status : string) : M unit :=
  updateCourseProgress env (course_id shown) progress status ;;;
  setShowCourseDetail None.

(** *** Daily tracker *)

(** The courses [App] passes to [DailyTracker], the source of its course
    dropdown. *)
Definition tracker_courses (cs : list Course) : list Course :=
  List.filter (fun c => str_neq (status c) "Completed") cs.

(** The [onLogAdded] prop: three fetches, started in this order and not
    awaited; the model runs each to completion in that order. *)
Definition onLogAdded (env : Env) : M unit :=
  fetchDailyLogs env ;;; fetchCourses env ;;; fetchAnalytics env.

(** [c.course_id && c.time_spent > 0] *)
Definition valid_entry (c : LogEntry) : bool :=
  truthy_str (entry_course_id c) && (time_spent c >? 0)%Z.


Definition handleSubmit (env : Env) : M unit :=
  let* st := read_tracker in
  if (length (selectedCourses st) =? 0)%nat then emit (Alert "ADD AT LEAST ONE COURSE")
  else
    let validCourses := List.filter valid_entry (selectedCourses st) in
    if (length validCourses =? 0)%nat then emit (Alert "SELECT COURSES AND ADD TIME")
    else
      let* ok := request env (PostLog (mkLogPayload (selectedDate st) validCourses
                                                    (notes st) (mood st))) in
      if ok then
        setSelectedCourses [] ;;; setNotes EmptyString ;;; setMood None ;;;
        onLogAdded env ;;; emit (Alert "LOG SAVED!")
      else
        emit (ConsoleError "Error saving log:") ;;; emit (Alert "ERROR SAVING LOG").

(** *** Planned sessions *)

(** The courses listed in the add-session dropdown of [CalendarView]. *)
Definition session_courses (cs : list Course) : list Course :=
  List.filter (fun c => str_neq (status c) "Completed") cs.

(** The option values of either dropdown: the empty placeholder, then the
    ids of the listed courses. *)
Definition option_values (listed : list Course) : list string :=
  EmptyString :: map course_id listed.

Definition truthy_date (d : option string) : bool :=
  match d with None => false | Some s => truthy_str s end.

Definition handleAddSession (env : Env) : M unit :=
  let* st := read_calendar in
  if negb (truthy_str (selectedCourse st)) || negb (truthy_date (planDate st))
  then emit (Alert "SELECT COURSE AND DATE")
  else
    let* ok := request env (PostPlanned (mkPlannedPayload (selectedCourse st)
                   (default EmptyString (planDate st)) (estimatedTime st) (planNotes st))) in
    if ok then
      setShowAddModal false ;;; setSelectedCourse EmptyString ;;; setEstimatedTime 60 ;;;
      setPlanNotes EmptyString ;;; fetchPlannedSessions env ;;; emit (Alert "SESSION PLANNED!")
    else
      emit (ConsoleError "Error adding session:") ;;; emit (Alert "ERROR PLANNING SESSION").

Definition handleDeleteSession (env : Env) (sessionId : string) : M unit :=
  emit (Confirm "DELETE THIS PLANNED SESSION?") ;;;
  let* t := history in
  if negb (confirms env t) then ret tt
  else
    let* ok := request env (DeletePlanned sessionId) in
    if ok then fetchPlannedSessions env
    else emit (ConsoleError "Error deleting session:").

(** *** A failing backend, for the error paths *)

(** Every request is rejected; the user confirms what is asked. *)
Definition failing_env : Env :=
  mkEnv (fun _ => false) (fun _ => []) (fun _ => mkSummary 0 0 0 0)
        (fun _ => []) (fun _ => []) (fun _ => true).

(** A world with one course not yet started, one planned session, a filled
    log form and a filled plan-session form. *)
Definition sample_world : World :=
  mkWorld
    (mkApp [mkCourse "c1" "HTML" 1 "Foundations" "Not Started" 0 "MUST"] None []
           [mkSession "s1" "c1" "2025-01-20" 60 EmptyString] None)
    (mkTracker "2025-01-15" [mkEntry "c1" "HTML" 30 EmptyString] EmptyString None)
    (mkCalendar true (Some "2025-01-20") "c1" 60 EmptyString)
    [].

(** The same world after a handler left the events [t] behind. *)
Definition after (t : list Event) : World :=
  mkWorld (app sample_world) (tracker sample_world) (calendar sample_world) t.

End View.

(** ** Streak *)

Module Streak.

(** Calendar days are numbered consecutively; [logs] is the set of days
    that have a daily log. *)

(** Length of the unbroken run of logged days that ends at day [d],
    walking backward one day at a time and stopping at the first gap. The
    walk cannot be longer than the number of logged days, which bounds it. *)
Fixpoint walk_back (fuel : nat) (logs : gset Z) (d : Z) : nat :=
  match fuel with
  | O => O
  | S fuel' =>
      if bool_decide (d ∈ logs) then S (walk_back fuel' logs (d - 1)) else O
  end.

Definition run_ending_at (logs : gset Z) (d : Z) : nat :=
  walk_back (size logs) logs d.

(** The most recent logged day, if any. *)
Definition most_recent (logs : gset Z) : option Z :=
  match elements logs with
  | [] => None
  | d :: l => Some (foldr Z.max d l)
  end.

(** Modelled from the spec: the streak computation of the backend behind
    [GET /api/analytics/summary], which the view layer only displays. This
    is the contract's first sentence: the walk backward from today. *)
Definition streak_from_today (today : Z) (logs : gset Z) : nat :=
  run_ending_at logs today.

(** Modelled from the spec: the backend's [current_streak] under the rule
    the specification fixes, namely the run of logged days ending at the most
    recent logged day, reported as 0 when that day is more than one day in
    the past (and when there is no log at all). *)
Definition current_streak (today : Z) (logs : gset Z) : nat :=
  match most_recent logs with
  | None => O
  | Some m => if (today - m >? 1)%Z then O else run_ending_at logs m
  end.

(** [n] is the length of the unbroken run of logged days ending at [d]. *)
Definition is_run (logs : gset Z) (d : Z) (n : nat) : Prop :=
  (forall i : nat, (i < n)%nat -> (d - Z.of_nat i)%Z ∈ logs) /\
  (d - Z.of_nat n)%Z ∉ logs.

End Streak.

(** ** Dates *)

Module JSDate.

Local Open Scope Z_scope.

(** The date arithmetic of ECMAScript (section "Date Objects"), on whole
    days. A [Date] is represented by its local day number, the number of days
    since 1 January 1970 in local time: the calendar builds its dates at
    local midnight and reads them back in local time, so neither the time
    within the day nor the time zone takes part. [/] and [mod] are the
    flooring operations of the standard. *)

Definition DaysInYear (y : Z) : Z :=
  if negb (y mod 4 =? 0) then 365
  else if negb (y mod 100 =? 0) then 366
  else if negb (y mod 400 =? 0) then 365
  else 366.

Definition DayFromYear (y : Z) : Z :=
  365 * (y - 1970) + (y - 1969) / 4 - (y - 1901) / 100 + (y - 1601) / 400.

(** The standard defines [YearFromTime] as the largest year [y] with
    [DayFromYear y <= d]; this computes it from an estimate that is off by at
    most one (see [YearFromTime_spec] and [YearFromTime_unique]). *)
Definition YearFromTime (d : Z) : Z :=
  let y0 := 1970 + (400 * d) / 146097 in
  if DayFromYear (y0 + 1) <=? d then y0 + 1
  else if DayFromYear y0 <=? d then y0
  else y0 - 1.

(** 1 in a leap year, else 0. *)
Definition LeapDay (y : Z) : Z := if DaysInYear y =? 366 then 1 else 0.
Definition InLeapYear (d : Z) : Z := LeapDay (YearFromTime d).
Definition DayWithinYear (d : Z) : Z := d - DayFromYear (YearFromTime d).

Definition MonthFromTime (d : Z) : Z :=
  let dwy := DayWithinYear d in
  let L := InLeapYear d in
  if dwy <? 31 then 0
  else if dwy <? 59 + L then 1
  else if dwy <? 90 + L then 2
  else if dwy <? 120 + L then 3
  else if dwy <? 151 + L then 4
  else if dwy <? 181 + L then 5
  else if dwy <? 212 + L then 6
  else if dwy <? 243 + L then 7
  else if dwy <? 273 + L then 8
  else if dwy <? 304 + L then 9
  else if dwy <? 334 + L then 10
  else 11.

Definition DateFromTime (d : Z) : Z :=
  let dwy := DayWithinYear d in
  let L := InLeapYear d in
  match MonthFromTime d with
  | 0 => dwy + 1
  | 1 => dwy - 30
  | 2 => dwy - 58 - L
  | 3 => dwy - 89 - L
  | 4 => dwy - 119 - L
  | 5 => dwy - 150 - L
  | 6 => dwy - 180 - L
  | 7 => dwy - 211 - L
  | 8 => dwy - 242 - L
  | 9 => dwy - 272 - L
  | 10 => dwy - 303 - L
  | _ => dwy - 333 - L
  end.

Definition WeekDay (d : Z) : Z := (d + 4) mod 7.

(** Day within the year of the first day of month [mn], given the
    leap-year flag [L]. *)
Definition MonthStart (L mn : Z) : Z :=
  match mn with
  | 0 => 0
  | 1 => 31
  | 2 => 59 + L
  | 3 => 90 + L
  | 4 => 120 + L
  | 5 => 151 + L
  | 6 => 181 + L
  | 7 => 212 + L
  | 8 => 243 + L
  | 9 => 273 + L
  | 10 => 304 + L
  | _ => 334 + L
  end.

(** [MakeDay]: months outside 0..11 carry into the year, and the date is
    an offset from the first day of the month, so that date 0 is the day
    before it. *)
Definition MakeDay (year month date : Z) : Z :=
  let ym := year + month / 12 in
  let mn := month mod 12 in
  DayFromYear ym + MonthStart (LeapDay ym) mn + date - 1.

(** [TimeClip]: a time value beyond 100,000,000 days from the epoch is
    not a date ([None] stands for the Invalid Date). *)
Definition TimeClip (d : Z) : option Z :=
  if Z.abs d <=? 100000000 then Some d else None.

(** [new Date(year, month, date)]: a year from 0 to 99 means 1900 + year. *)
Definition Date_new (year month date : Z) : option Z :=
  let yr := if (0 <=? year) && (year <=? 99) then 1900 + year else year in
  TimeClip (MakeDay yr month date).

(** *** The Gregorian calendar, for reference *)

Definition is_leap (y : Z) : bool :=
  (y mod 4 =? 0) && (negb (y mod 100 =? 0) || (y mod 400 =? 0)).

(** Number of days of the zero-based month [m] of year [y]. *)
Definition days_in_month (y m : Z) : Z :=
  match m with
  | 0 | 2 | 4 | 6 | 7 | 9 | 11 => 31
  | 3 | 5 | 8 | 10 => 30
  | _ => if is_leap y then 29 else 28
  end.

(** Weekday (0 = Sunday) of day [q] of the zero-based month [m] of year
    [y], by Zeller's congruence. *)
Definition zeller (y m q : Z) : Z :=
  let Y := if m <? 2 then y - 1 else y in
  let M := if m <? 2 then m + 13 else m + 1 in
  let K := Y mod 100 in
  let J := Y / 100 in
  (q + (13 * (M + 1)) / 5 + K + K / 4 + J / 4 + 5 * J + 6) mod 7.

End JSDate.

(** ** Strings of numbers *)

Module JSString.

(** [String(n)] for an integer [n]: its decimal digits, with a minus sign
    when negative. *)
Definition ToString (n : Z) : string := NilZero.string_of_int (Z.to_int n).

(** [n] characters taken from [fill] over and over; [rest] is what is left
    of the current copy. *)
Fixpoint filler (n : nat) (fill rest : string) : string :=
  match n with
  | O => EmptyString
  | S k =>
      match rest with
      | String c r => String c (filler k fill r)
      | EmptyString =>
          match fill with
          | String c r => String c (filler k fill r)
          | EmptyString => EmptyString
          end
      end
  end.

(** [s.padStart(maxLength, fillString)] *)
Definition padStart (maxLength : nat) (fillString : string) (s : string) : string :=
  let len := String.length s in
  if (maxLength <=? len)%nat then s
  else if String.eqb fillString EmptyString then s
  else (filler (maxLength - len) fillString fillString ++ s)%string.

(** *** Zero-padded dates, for reference *)

Definition digit (d : Z) : ascii := ascii_of_nat (48 + Z.to_nat d).

Definition two_digits (n : Z) : string :=
  String (digit (n / 10 mod 10)) (String (digit (n mod 10)) EmptyString).

Definition four_digits (n : Z) : string :=
  String (digit (n / 1000 mod 10)) (String (digit (n / 100 mod 10)) (two_digits n)).

(** The [YYYY-MM-DD] string of year [y], month [m] (1..12) and day [d]. *)
Definition iso_date (y m d : Z) : string :=
  (four_digits y ++ "-" ++ two_digits m ++ "-" ++ two_digits d)%string.

(** The integers [lo], [lo + 1], ..., [lo + n - 1]. *)
Definition range (lo : Z) (n : nat) : list Z :=
  map (fun i => (lo + Z.of_nat i)%Z) (seq 0 n).

End JSString.

(** ** Calendar month grid *)

Module Calendar.

Import JSDate JSString.

(** The methods of [Date.prototype] the calendar calls, in local time. *)
Definition getFullYear (date : Z) : Z := YearFromTime date.
Definition getMonth (date : Z) : Z := MonthFromTime date.
Definition getDate (date : Z) : Z := DateFromTime date.
Definition getDay (date : Z) : Z := WeekDay date.

(** [getDaysInMonth(date)], giving [(daysInMonth, startingDayOfWeek)].
    [getDate] of an Invalid Date is [NaN], with which the rendering of the
    grid throws: [None]. *)
Definition getDaysInMonth (date : Z) : option (Z * Z) :=
  let year := getFullYear date in
  let month := getMonth date in
  match Date_new year month 1, Date_new year (month + 1) 0 with
  | Some firstDay, Some lastDay =>
      let daysInMonth := getDate lastDay in
      let startingDayOfWeek := getDay firstDay in
      Some (daysInMonth, startingDayOfWeek)
  | _, _ => None
  end.

(** [getActivityForDate(dateStr)], giving [(log, planned)]. *)
Definition getActivityForDate (dailyLogs : list DailyLog)
    (plannedSessions : list PlannedSession) (dateStr : string)
    : option DailyLog * list PlannedSession :=
  let log := List.find (fun l => String.eqb (log_date l) dateStr) dailyLogs in
  let planned := List.filter (fun p => String.eqb (planned_date p) dateStr) plannedSessions in
  (log, planned).

(** A cell of the grid below the seven weekday headers: a blank cell with
    its index, or a day cell with the day number, the date string it hands
    to the plan-session form, its log and its planned sessions. *)
Inductive Cell :=
  | Blank (i : nat)
  | DayCell (day : Z) (dateStr : string) (log : option DailyLog)
            (planned : list PlannedSession).

(** The callback of the second [map] of the grid. *)
Definition day_cell (currentDate : Z) (dailyLogs : list DailyLog)
    (plannedSessions : list PlannedSession) (i : nat) : Cell :=
  let day := (Z.of_nat i + 1)%Z in
  let dateStr :=
    (ToString (getFullYear currentDate) ++ "-" ++
     padStart 2 "0" (ToString (getMonth currentDate + 1)) ++ "-" ++
     padStart 2 "0" (ToString day))%string in
  let (log, planned) := getActivityForDate dailyLogs plannedSessions dateStr in
  DayCell day dateStr log planned.

(** The cells rendered for the month of [currentDate]:
    [[...Array(startingDayOfWeek)].map(...)] and then
    [[...Array(daysInMonth)].map(...)]. *)
Definition grid (currentDate : Z) (dailyLogs : list DailyLog)
    (plannedSessions : list PlannedSession) : option (list Cell) :=
  match getDaysInMonth currentDate with
  | Some (daysInMonth, startingDayOfWeek) =>
      Some (map Blank (seq 0 (Z.to_nat startingDayOfWeek)) ++
            map (day_cell currentDate dailyLogs plannedSessions)
                (seq 0 (Z.to_nat daysInMonth)))
  | None => None
  end.

(** The day cell the specification asks for: day [i + 1] of the zero-based
    month [m] of year [y], under its zero-padded date string. *)
Definition expected_cell (y m : Z) (dailyLogs : list DailyLog)
    (plannedSessions : list PlannedSession) (i : nat) : Cell :=
  let key := iso_date y (m + 1) (Z.of_nat i + 1) in
  DayCell (Z.of_nat i + 1) key
    (List.find (fun l => String.eqb (log_date l) key) dailyLogs)
    (List.filter (fun p => String.eqb (planned_date p) key) plannedSessions).

End Calendar.

(** ** Further handlers and views *)

(** *** What a computation adds to the trace and what it leaves alone *)

Module Effects.

Import View.

(** [m] appends events to the trace, and those selected by [sel] are [es],
    whatever the backend answers. *)
Definition emits {A} (sel : Event -> bool) (m : M A) (es : list Event) : Prop :=
  forall w, exists evs, trace (exec m w) = trace w ++ evs /\ List.filter sel evs = es.

(** [m] never changes the part [proj] of the world. *)
Definition keeps {A B} (proj : World -> B) (m : M A) : Prop :=
  forall w, proj (exec m w) = proj w.

(** Everything but the developer console: requests, alerts and confirms. *)
Definition visible (e : Event) : bool :=
  match e with ConsoleError _ => false | _ => true end.

(** The selectors that ignore the developer console. *)
Definition deaf (sel : Event -> bool) : Prop :=
  forall msg, sel (ConsoleError msg) = false.

(** The events a computation added to the trace of [w]. *)
Definition added {A} (m : M A) (w : World) : list Event :=
  drop (length (trace w)) (trace (exec m w)).

(** A backend on which every request succeeds and that returns the lists
    it is given; the user confirms what is asked. *)
Definition serving_env (cs : list Course) (ls : list DailyLog)
    (ps : list PlannedSession) : Env :=
  mkEnv (fun _ => true) (fun _ => cs) (fun _ => mkSummary 0 0 0 0)
        (fun _ => ls) (fun _ => ps) (fun _ => true).

End Effects.

(** *** Start of the application *)

Module Boot.

Import View.
Local Open Scope view_scope.

(** [initializeApp]. The POST to [/init-database] ([PostInit]) is sent
    first and awaited. When it rejects, the [catch] logs and no fetch is
    started. The four fetches of [Promise.all] are started in the order
    written and never reject; the model runs each to completion in that
    order. [setLoading] ends at [false] on both paths ([finally]); the
    [loading] cell is not part of [AppState]. *)
Definition initializeApp (env : Env) : M unit :=
  let* ok := request env PostInit in
  if ok then
    fetchCourses env ;;; fetchAnalytics env ;;; fetchDailyLogs env ;;;
    fetchPlannedSessions env
  else emit (ConsoleError "Error initializing app:").

End Boot.

(** *** Course cards *)

Module Cards.

Import View.

Inductive Button := START | DONE.

(** The buttons [CourseCard] renders under a course. *)
Definition card_buttons (course : Course) : list Button :=
  (if String.eqb (status course) "Not Started" then [START] else []) ++
  (if String.eqb (status course) "In Progress" then [DONE] else []).

(** [onClick] of a button of the card of [course]; [stopPropagation] keeps
    the click from opening the detail modal. *)
Definition click (env : Env) (course : Course) (b : Button) : M unit :=
  match b with
  | START => handleStartCourse env course
  | DONE => handleCompleteCourse env course
  end.

End Cards.

(** *** The entry rows of the daily tracker *)

Module TrackerForm.

Import View.
Local Open Scope view_scope.

(** [x || d] for [x] the result of [parseInt]: [None] is [NaN], which is
    falsy like 0. *)
Definition js_or (parsed : option Z) (d : Z) : Z :=
  match parsed with
  | Some n => if (n =? 0)%Z then d else n
  | None => d
  end.

(** [l.filter((x, i) => f(x, i))], with [i] the index of the first element. *)
Fixpoint filteri {A} (f : A -> nat -> bool) (i : nat) (l : list A) : list A :=
  match l with
  | [] => []
  | x :: l' => if f x i then x :: filteri f (S i) l' else filteri f (S i) l'
  end.

Definition blank_entry : LogEntry := mkEntry EmptyString EmptyString 0 EmptyString.

(** The list [handleAddCourse] stores. *)
Definition with_new_row (selectedCourses : list LogEntry) : list LogEntry :=
  selectedCourses ++ [blank_entry].

(** The list [handleRemoveCourse(index)] stores. *)
Definition without_row (index : nat) (selectedCourses : list LogEntry) : list LogEntry :=
  filteri (fun _ i => negb (i =? index)%nat) 0 selectedCourses.

(** The [field] and [value] of the three call sites of [handleUpdateCourse];
    the time is [parseInt(e.target.value) || 0]. *)
Inductive Field :=
  | course_id_is (value : string)
  | time_spent_is (parsed : option Z)
  | progress_notes_is (value : string).

(** [updated[index][field] = value] *)
Definition set_field (e : LogEntry) (f : Field) : LogEntry :=
  match f with
  | course_id_is value =>
      mkEntry value (entry_course_title e) (time_spent e) (progress_notes e)
  | time_spent_is parsed =>
      mkEntry (entry_course_id e) (entry_course_title e) (js_or parsed 0) (progress_notes e)
  | progress_notes_is value =>
      mkEntry (entry_course_id e) (entry_course_title e) (time_spent e) value
  end.

(** The second step of [handleUpdateCourse]: a non-empty course id takes
    the title of the first offered course with that id, if there is one. *)
Definition sync_title (offered : list Course) (e : LogEntry) (f : Field) : LogEntry :=
  match f with
  | course_id_is value =>
      if truthy_str value then
        match List.find (fun c => String.eqb (course_id c) value) offered with
        | Some course =>
            mkEntry (entry_course_id e) (title course) (time_spent e) (progress_notes e)
        | None => e
        end
      else e
  | _ => e
  end.

(** The list [handleUpdateCourse(index, field, value)] stores; [None] when
    [updated[index]] is [undefined], where the assignment throws. *)
Definition with_field (offered : list Course) (index : nat) (f : Field)
    (selectedCourses : list LogEntry) : option (list LogEntry) :=
  match selectedCourses !! index with
  | None => None
  | Some e => Some (<[index := sync_title offered (set_field e f) f]> selectedCourses)
  end.

Definition handleAddCourse : M unit :=
  let* st := read_tracker in setSelectedCourses (with_new_row (selectedCourses st)).

Definition handleRemoveCourse (index : nat) : M unit :=
  let* st := read_tracker in setSelectedCourses (without_row index (selectedCourses st)).

(** When the assignment throws, [setSelectedCourses] is not reached. *)
Definition handleUpdateCourse (offered : list Course) (index : nat) (f : Field) : M unit :=
  let* st := read_tracker in
  match with_field offered index f (selectedCourses st) with
  | Some updated => setSelectedCourses updated
  | None => ret tt
  end.



(** The first event a computation adds to the trace, if any. *)
Definition first_added {A} (m : M A) (w : World) : option Event :=
  trace (exec m w) !! length (trace w).

End TrackerForm.

(** *** The plan-session form of the calendar *)

Module PlanForm.

Import View.
Local Open Scope view_scope.


(** The date string of the day cell [i] of the month of [currentDate]. *)
Definition cell_dateStr (currentDate : Z) (i : nat) : string :=
  match Calendar.day_cell currentDate [] [] i with
  | Calendar.DayCell _ dateStr _ _ => dateStr
  | Calendar.Blank _ => EmptyString
  end.





(** The log and the planned sessions the day cell [i] is marked with: the
    tick [log &&] and the count [planned.length]. *)
Definition shown_on (currentDate : Z) (dailyLogs : list DailyLog)
    (plannedSessions : list PlannedSession) (i : nat)
    : option DailyLog * list PlannedSession :=
  match Calendar.day_cell currentDate dailyLogs plannedSessions i with
  | Calendar.DayCell _ _ log planned => (log, planned)
  | Calendar.Blank _ => (None, [])
  end.

End PlanForm.

(** *** Calendar navigation *)

Module Navigation.

Import JSDate Calendar.

(** [new Date(year, month)]: the day defaults to 1. [currentDate] is [None]
    once it is an Invalid Date, and stays so. *)
Definition prevMonth (currentDate : option Z) : option Z :=
  match currentDate with
  | Some d => Date_new (getFullYear d) (getMonth d - 1) 1
  | None => None
  end.

Definition nextMonth (currentDate : option Z) : option Z :=
  match currentDate with
  | Some d => Date_new (getFullYear d) (getMonth d + 1) 1
  | None => None
  end.

(** The year a year of one or two digits stands for in [new Date]. *)
Definition full_year (year : Z) : Z :=
  if (0 <=? year)%Z && (year <=? 99)%Z then (1900 + year)%Z else year.

End Navigation.

(** *** Lists shown on the dashboard, the calendar and the completed tab *)

Module Lists.

(** [a >= b] on strings: by code units, a proper prefix being smaller. *)
Definition str_ge (a b : string) : bool :=
  match String.compare a b with
  | Lt => false
  | _ => true
  end.

(** The sessions listed under UPCOMING PLANNED SESSIONS, [today] being
    [new Date().toISOString().split('T')[0]]. *)
Definition upcoming (today : string) (plannedSessions : list PlannedSession)
    : list PlannedSession :=
  firstn 10 (List.filter (fun s => str_ge (planned_date s) today) plannedSessions).

(** Whether NO PLANNED SESSIONS is shown. *)
Definition no_upcoming (today : string) (plannedSessions : list PlannedSession) : bool :=
  (length (List.filter (fun s => str_ge (planned_date s) today) plannedSessions) =? 0)%nat.

(** The courses [App] passes to [CompletedCourses]. *)
Definition completed_courses_of (cs : list Course) : list Course :=
  List.filter (fun c => String.eqb (status c) "Completed") cs.

(** A tile of PHASE PROGRESS: [(completed, phaseCourses.length)]. *)
Definition phase_tile (courses : list Course) (p : Z) : nat * nat :=
  let phaseCourses := List.filter (fun c => (phase c =? p)%Z) courses in
  let completed :=
    length (List.filter (fun c => String.eqb (status c) "Completed") phaseCourses) in
  (completed, length phaseCourses).

(** The phases the dashboard shows a tile for. *)
Definition dashboard_phases : list Z := [1; 2; 3; 4; 5; 6; 7; 8]%Z.

(** Calendar dates in their order: year, then month, then day. *)
Definition civil_le (y m d y' m' d' : Z) : Prop :=
  (y < y' \/ (y = y' /\ (m < m' \/ (m = m' /\ d <= d'))))%Z.

End Lists.

(** * Theorems *)

(** ** Helper facts on the JavaScript primitives *)

Lemma str_neq_true a b : str_neq a b = true <-> a <> b.
Proof.
  unfold str_neq. rewrite negb_true_iff. apply String.eqb_neq.
Qed.

Lemma str_neq_false a b : str_neq a b = false <-> a = b.
Proof.
  unfold str_neq. rewrite negb_false_iff. apply String.eqb_eq.
Qed.

(** ** Filtered view *)

Section FilterFacts.
Import Filter.
Variables (sp : option Z) (sf pf : string).

Lemma flat_pred_group_pred c : flat_pred sp sf pf c = group_pred sp sf pf c.
Proof.
  unfold flat_pred, group_pred.
  destruct (truthy_phase sp && phase_neq (phase c) sp);
    destruct (str_neq sf "all" && str_neq (status c) sf);
    destruct (str_neq pf "all" && str_neq (priority c) pf); reflexivity.
Qed.

Lemma criterion_inactive_or_met (f v : string) :
  str_neq f "all" && str_neq v f = false <-> f = "all" \/ v = f.
Proof.
  rewrite andb_false_iff, !str_neq_false. reflexivity.
Qed.

Lemma flat_pred_true c :
  flat_pred sp sf pf c = true <->
  (truthy_phase sp && phase_neq (phase c) sp = false) /\
  (sf = "all" \/ status c = sf) /\ (pf = "all" \/ priority c = pf).
Proof.
  unfold flat_pred. rewrite <- !criterion_inactive_or_met.
  destruct (truthy_phase sp && phase_neq (phase c) sp);
    destruct (str_neq sf "all" && str_neq (status c) sf);
    destruct (str_neq pf "all" && str_neq (priority c) pf); intuition congruence.
Qed.

Lemma flat_pred_meets c : sp <> Some 0%Z -> flat_pred sp sf pf c = true <-> meets sp sf pf c.
Proof.
  intros Hsp. rewrite flat_pred_true. unfold meets.
  assert (truthy_phase sp && phase_neq (phase c) sp = false <->
          match sp with Some p => phase c = p | None => True end) as ->; [|reflexivity].
  destruct sp as [n|]; simpl; [|tauto].
  destruct (Z.eqb_spec n 0) as [->|Hn]; [congruence|]. simpl.
  rewrite negb_false_iff, Z.eqb_eq. reflexivity.
Qed.

Lemma filter_flat_pred_meets courses :
  sp <> Some 0%Z ->
  List.filter (flat_pred sp sf pf) courses = filter (meets sp sf pf) courses.
Proof.
  intros Hsp. induction courses as [|c l IH]; [reflexivity|].
  rewrite filter_cons. simpl. rewrite IH.
  destruct (decide (meets sp sf pf c)) as [Hm|Hm].
  - apply (flat_pred_meets c Hsp) in Hm. rewrite Hm. reflexivity.
  - destruct (flat_pred sp sf pf c) eqn:E; [|reflexivity].
    apply (flat_pred_meets c Hsp) in E. contradiction.
Qed.
End FilterFacts.

(** C3 (as amended). Provided the phase criterion is the "all phases"
    choice or a phase number other than 0 (phase numbers are 1..8),
    [getFilteredCourses]
    returns exactly the courses that meet every active criterion, in their
    original order: it is the order-preserving filter of the course list by
    the specification predicate, hence a subsequence of it, and with all
    three criteria at "all" nothing is excluded. *)
Theorem getFilteredCourses_spec (courses : list Course) (sp : option Z) (sf pf : string) :
  sp <> Some 0%Z ->
  Filter.getFilteredCourses courses sp sf pf = filter (Filter.meets sp sf pf) courses /\
  sublist (Filter.getFilteredCourses courses sp sf pf) courses /\
  (forall c, In c (Filter.getFilteredCourses courses sp sf pf) <->
             In c courses /\ Filter.meets sp sf pf c) /\
  (sp = None -> sf = "all" -> pf = "all" ->
   Filter.getFilteredCourses courses sp sf pf = courses).
Proof.
  intros Hsp. unfold Filter.getFilteredCourses.
  rewrite (filter_flat_pred_meets sp sf pf courses Hsp).
  split; [reflexivity|]. split; [apply sublist_filter|]. split.
  - intros c. rewrite <- !list_elem_of_In, list_elem_of_filter. tauto.
  - intros -> -> ->. induction courses as [|c l IH]; [reflexivity|].
    rewrite filter_cons_True; [congruence|]. unfold Filter.meets. tauto.
Qed.

Lemma getFilteredCourses_spec_witness :
  let c1 := mkCourse "c1" "HTML" 1 "Foundations" "Completed" 100 "MUST" in
  let c2 := mkCourse "c2" "CSS" 1 "Foundations" "In Progress" 40 "Optional" in
  let c3 := mkCourse "c3" "React" 2 "Frameworks" "In Progress" 10 "MUST" in
  Some 1%Z <> Some 0%Z /\
  Filter.getFilteredCourses [c1; c2; c3] (Some 1%Z) "all" "MUST"
  = filter (Filter.meets (Some 1%Z) "all" "MUST") [c1; c2; c3].
Proof.
  intros c1 c2 c3. split; [discriminate|].
  apply (getFilteredCourses_spec [c1; c2; c3] (Some 1%Z) "all" "MUST"). discriminate.
Defined.

(** Without that proviso the claim fails. With the phase criterion 0,
    which is a phase number and not the "all phases" choice, a course of
    phase 1 does not meet the criteria and yet is returned: 0 is falsy in
    JavaScript and the test on the phase is skipped. *)
Lemma getFilteredCourses_counterexample :
  let c1 := mkCourse "c1" "HTML" 1 "Foundations" "Completed" 100 "MUST" in
  ~ Filter.meets (Some 0%Z) "all" "all" c1 /\
  In c1 (Filter.getFilteredCourses [c1] (Some 0%Z) "all" "all") /\
  filter (Filter.meets (Some 0%Z) "all" "all") [c1] = [] /\
  Filter.getFilteredCourses [c1] (Some 0%Z) "all" "all" = [c1].
Proof.
  intros c1. split; [|split; [|split]].
  - intros [H _]. discriminate H.
  - left. reflexivity.
  - reflexivity.
  - reflexivity.
Qed.

Example getFilteredCourses_sample :
  let c1 := mkCourse "c1" "HTML" 1 "Foundations" "Completed" 100 "MUST" in
  let c2 := mkCourse "c2" "CSS" 1 "Foundations" "In Progress" 40 "Optional" in
  let c3 := mkCourse "c3" "React" 2 "Frameworks" "In Progress" 10 "MUST" in
  Filter.getFilteredCourses [c1; c2; c3] (Some 1%Z) "all" "MUST" = [c1] /\
  Filter.getFilteredCourses [c1; c2; c3] None "In Progress" "all" = [c2; c3].
Proof. split; reflexivity. Qed.

(** The phase number 0 is falsy in JavaScript: chosen as the phase
    criterion it is not applied at all. *)
Example getFilteredCourses_phase_zero :
  let c1 := mkCourse "c1" "HTML" 1 "Foundations" "Completed" 100 "MUST" in
  Filter.getFilteredCourses [c1] (Some 0%Z) "all" "all" = [c1].
Proof. reflexivity. Qed.

(** ** Phase grouping *)

Section PhaseFacts.
Import Phases.

Lemma getCoursesByPhase_snoc courses c :
  getCoursesByPhase (courses ++ [c]) = add_course (getCoursesByPhase courses) c.
Proof. unfold getCoursesByPhase. rewrite fold_left_app. reflexivity. Qed.

Lemma of_phase_snoc p courses c :
  of_phase p (courses ++ [c]) =
  of_phase p courses ++ (if (phase c =? p)%Z then [c] else []).
Proof. unfold of_phase. rewrite List.filter_app. reflexivity. Qed.

(** What [add_course] stores under each key. *)
Lemma add_course_lookup phases c p :
  add_course phases c !! p =
  if decide (phase c = p) then
    match phases !! p with
    | None => Some (mkGroup (phase_title c) [c])
    | Some g => Some (mkGroup (pg_title g) (pg_courses g ++ [c]))
    end
  else phases !! p.
Proof.
  unfold add_course. destruct (decide (phase c = p)) as [<-|Hne].
  - rewrite lookup_alter_eq. destruct (phases !! phase c) as [g|] eqn:E.
    + rewrite E. reflexivity.
    + rewrite lookup_insert_eq. reflexivity.
  - rewrite lookup_alter_ne by exact Hne.
    destruct (phases !! phase c); [reflexivity|].
    rewrite lookup_insert_ne by exact Hne. reflexivity.
Qed.

Lemma getCoursesByPhase_lookup courses p :
  getCoursesByPhase courses !! p = group_of p courses.
Proof.
  induction courses as [|c l IH] using rev_ind; [apply lookup_empty|].
  rewrite getCoursesByPhase_snoc, add_course_lookup, IH.
  unfold Phases.group_of. rewrite of_phase_snoc.
  destruct (decide (phase c = p)) as [<-|Hne].
  - rewrite Z.eqb_refl. destruct (of_phase (phase c) l); reflexivity.
  - apply Z.eqb_neq in Hne. rewrite Hne, app_nil_r. reflexivity.
Qed.

Lemma flat_map_perm {A B} (f : A -> list B) (l1 l2 : list A) :
  l1 ≡ₚ l2 -> flat_map f l1 ≡ₚ flat_map f l2.
Proof.
  induction 1 as [|x l l' _ IH|x y l|l l' l'' _ IH1 _ IH2]; simpl.
  - reflexivity.
  - rewrite IH. reflexivity.
  - rewrite !app_assoc. apply Permutation_app_tail, Permutation_app_comm.
  - etransitivity; eassumption.
Qed.

Lemma flatten_add_course phases c :
  flatten (add_course phases c) ≡ₚ flatten phases ++ [c].
Proof.
  unfold add_course, flatten. destruct (phases !! phase c) as [g|] eqn:E.
  - rewrite <- (insert_id phases (phase c) g E) at 1.
    rewrite alter_insert_eq, <- insert_delete_eq.
    rewrite (flat_map_perm _ _ _ (map_to_list_insert _ _ _ (lookup_delete_eq _ _))).
    rewrite <- (flat_map_perm _ _ _ (map_to_list_delete _ _ _ E)). simpl.
    rewrite <- !app_assoc. apply Permutation_app_head, Permutation_app_comm.
  - rewrite alter_insert_eq.
    rewrite (flat_map_perm _ _ _ (map_to_list_insert _ _ _ E)). simpl.
    apply Permutation_cons_append.
Qed.

Lemma flatten_getCoursesByPhase courses :
  flatten (getCoursesByPhase courses) ≡ₚ courses.
Proof.
  induction courses as [|c l IH] using rev_ind.
  - unfold getCoursesByPhase, flatten. simpl. rewrite map_to_list_empty. reflexivity.
  - rewrite getCoursesByPhase_snoc, flatten_add_course, IH. reflexivity.
Qed.

Lemma of_phase_In p courses c : In c (of_phase p courses) <-> In c courses /\ phase c = p.
Proof. unfold of_phase. rewrite filter_In, Z.eqb_eq. reflexivity. Qed.
End PhaseFacts.

(** C5. [getCoursesByPhase] maps a phase number to the group of exactly the
    courses of that phase, in catalog order, titled with the [phase_title]
    of the first of them; a phase without courses has no entry and no group
    is empty; every course of the list is found under its own phase; and
    the groups together hold each course of the list exactly as often as
    the list does (a permutation of the list). *)
Theorem getCoursesByPhase_spec (courses : list Course) :
  (forall p g, Phases.getCoursesByPhase courses !! p = Some g ->
     Phases.pg_courses g = Phases.of_phase p courses /\
     exists c0 rest, Phases.pg_courses g = c0 :: rest /\
                     Phases.pg_title g = phase_title c0) /\
  (forall p, Phases.getCoursesByPhase courses !! p = None <->
             Phases.of_phase p courses = []) /\
  (forall c, In c courses ->
     exists g, Phases.getCoursesByPhase courses !! phase c = Some g /\
               In c (Phases.pg_courses g)) /\
  (forall p g c, Phases.getCoursesByPhase courses !! p = Some g ->
     In c (Phases.pg_courses g) -> phase c = p) /\
  Phases.flatten (Phases.getCoursesByPhase courses) ≡ₚ courses.
Proof.
  split; [|split; [|split; [|split]]].
  - intros p g. rewrite getCoursesByPhase_lookup. unfold Phases.group_of.
    destruct (Phases.of_phase p courses) as [|c0 rest] eqn:E; [discriminate|].
    intros [= <-]. simpl. split; [reflexivity|]. exists c0, rest. split; reflexivity.
  - intros p. rewrite getCoursesByPhase_lookup. unfold Phases.group_of.
    destruct (Phases.of_phase p courses); split; congruence.
  - intros c Hc. rewrite getCoursesByPhase_lookup. unfold Phases.group_of.
    assert (In c (Phases.of_phase (phase c) courses)) as Hin
      by (apply of_phase_In; split; [exact Hc | reflexivity]).
    destruct (Phases.of_phase (phase c) courses) as [|c0 rest] eqn:E; [destruct Hin|].
    eexists. split; [reflexivity|]. exact Hin.
  - intros p g c. rewrite getCoursesByPhase_lookup. unfold Phases.group_of.
    destruct (Phases.of_phase p courses) as [|c0 rest] eqn:E; [discriminate|].
    intros [= <-]. cbn [Phases.pg_courses]. rewrite <- E.
    intros Hin. apply of_phase_In in Hin. tauto.
  - apply flatten_getCoursesByPhase.
Qed.

Example getCoursesByPhase_sample :
  let c1 := mkCourse "c1" "HTML" 1 "Foundations" "Completed" 100 "MUST" in
  let c2 := mkCourse "c2" "React" 2 "Frameworks" "In Progress" 10 "MUST" in
  let c3 := mkCourse "c3" "CSS" 1 "Basics" "In Progress" 40 "Optional" in
  Phases.getCoursesByPhase [c1; c2; c3] !! 1%Z = Some (Phases.mkGroup "Foundations" [c1; c3]) /\
  Phases.getCoursesByPhase [c1; c2; c3] !! 2%Z = Some (Phases.mkGroup "Frameworks" [c2]) /\
  Phases.getCoursesByPhase [c1; c2; c3] !! 3%Z = None.
Proof. repeat split; vm_compute; reflexivity. Qed.

Lemma filter_of_phase sp sf pf p (l : list Course) :
  List.filter (Filter.group_pred sp sf pf) (Phases.of_phase p l)
  = Phases.of_phase p (Filter.getFilteredCourses l sp sf pf).
Proof.
  unfold Phases.of_phase, Filter.getFilteredCourses.
  induction l as [|d l IH]; [reflexivity|]. simpl.
  destruct (phase d =? p)%Z eqn:E1; simpl;
    rewrite <- ?(flat_pred_group_pred sp sf pf d);
    destruct (Filter.flat_pred sp sf pf d) eqn:E2; simpl; rewrite ?E1, ?IH; reflexivity.
Qed.

(** C4. The filter [CoursesView] applies inside each phase group and the
    flat filter of [getFilteredCourses] are the same predicate, although
    they test the criteria in different orders: a course is in the flat
    filtered list exactly when it is in the filtered list of the group of
    its own phase, and the filtered group of a phase is the flat filtered
    list restricted to that phase, in the same order. *)
Theorem flat_and_group_filters_agree (courses : list Course) (sp : option Z) (sf pf : string) :
  (forall c, Filter.flat_pred sp sf pf c = Filter.group_pred sp sf pf c) /\
  (forall c, In c (Filter.getFilteredCourses courses sp sf pf) <->
     exists g, Phases.getCoursesByPhase courses !! phase c = Some g /\
               In c (List.filter (Filter.group_pred sp sf pf) (Phases.pg_courses g))) /\
  (forall p g, Phases.getCoursesByPhase courses !! p = Some g ->
     List.filter (Filter.group_pred sp sf pf) (Phases.pg_courses g)
     = Phases.of_phase p (Filter.getFilteredCourses courses sp sf pf)).
Proof.
  assert (Hgroup : forall p g, Phases.getCoursesByPhase courses !! p = Some g ->
            Phases.pg_courses g = Phases.of_phase p courses).
  { intros p g. rewrite getCoursesByPhase_lookup. unfold Phases.group_of.
    destruct (Phases.of_phase p courses) eqn:E; [discriminate|]. intros [= <-]. reflexivity. }
  split; [apply flat_pred_group_pred|]. split.
  - intros c. unfold Filter.getFilteredCourses. rewrite filter_In. split.
    + intros [Hc Hp]. rewrite getCoursesByPhase_lookup. unfold Phases.group_of.
      assert (In c (Phases.of_phase (phase c) courses)) as Hin
        by (apply of_phase_In; split; [exact Hc | reflexivity]).
      destruct (Phases.of_phase (phase c) courses) as [|c0 rest] eqn:E; [destruct Hin|].
      eexists. split; [reflexivity|]. simpl Phases.pg_courses.
      apply filter_In. split; [exact Hin|]. rewrite <- flat_pred_group_pred. exact Hp.
    + intros (g & Hg & Hin). apply Hgroup in Hg. rewrite Hg in Hin.
      apply filter_In in Hin as [Hin Hp]. apply of_phase_In in Hin as [Hin _].
      split; [exact Hin|]. rewrite flat_pred_group_pred. exact Hp.
  - intros p g Hg. rewrite (Hgroup p g Hg). apply filter_of_phase.
Qed.

(** ** Handlers of the view layer *)

Section ViewFacts.
Import View.
Variable env : Env.

(** Unfold a handler down to the primitives of the monad. *)
Ltac run :=
  unfold exec, handleStartCourse, handleCompleteCourse, handleUpdate, onUpdate,
    updateCourseProgress, handleSubmit, handleAddSession, handleDeleteSession,
    onLogAdded, fetchCourses, fetchAnalytics, fetchDailyLogs, fetchPlannedSessions,
    setCourses, setAnalytics, setDailyLogs, setPlannedSessions, setShowCourseDetail,
    setSelectedCourses, setNotes, setMood, setShowAddModal, setSelectedCourse,
    setEstimatedTime, setPlanNotes, modify_app, modify_tracker, modify_calendar,
    read_tracker, read_calendar, history, request, emit, bind, ret;
  cbn [fst snd app tracker calendar trace].

(** *** Computations without write requests *)

Lemma silent_ret {A} (a : A) : silent (ret a).
Proof. intros w. exists []. rewrite app_nil_r. split; reflexivity. Qed.

Lemma silent_bind {A B} (m : M A) (k : A -> M B) :
  silent m -> (forall a, silent (k a)) -> silent (bind m k).
Proof.
  intros Hm Hk w. unfold exec, bind. destruct (Hm w) as (e1 & H1 & M1).
  unfold exec in H1. destruct (m w) as [a w1]. cbn [snd] in H1.
  destruct (Hk a w1) as (e2 & H2 & M2). unfold exec in H2.
  exists (e1 ++ e2). rewrite H2, H1, app_assoc. split; [reflexivity|].
  unfold mutations in *. rewrite List.filter_app, M1, M2. reflexivity.
Qed.

Lemma silent_emit e : is_mutation e = false -> silent (emit e).
Proof.
  intros He w. exists [e]. split; [reflexivity|]. unfold mutations. simpl.
  rewrite He. reflexivity.
Qed.

Lemma silent_request e : is_mutation e = false -> silent (request env e).
Proof.
  intros He w. exists [e]. split; [reflexivity|]. unfold mutations. simpl.
  rewrite He. reflexivity.
Qed.

Lemma silent_pure {A} (f : World -> A * World) :
  (forall w, trace (snd (f w)) = trace w) -> silent f.
Proof.
  intros H w. exists []. rewrite app_nil_r. split; [apply H|reflexivity].
Qed.

Lemma exec_read_tracker {A} (k : TrackerState -> M A) w :
  exec (bind read_tracker k) w = exec (k (tracker w)) w.
Proof. reflexivity. Qed.

Lemma silent_history : silent history.
Proof. apply silent_pure. reflexivity. Qed.

Lemma silent_modify_app f : silent (modify_app f).
Proof. apply silent_pure. reflexivity. Qed.

Lemma silent_modify_tracker f : silent (modify_tracker f).
Proof. apply silent_pure. reflexivity. Qed.

Lemma silent_modify_calendar f : silent (modify_calendar f).
Proof. apply silent_pure. reflexivity. Qed.

(** Decompose a computation into pieces known to be silent. *)
Ltac silence :=
  repeat match goal with
         | |- silent (ret _) => apply silent_ret
         | |- silent (bind _ _) => apply silent_bind; [|intro]
         | |- silent (emit _) => apply silent_emit; reflexivity
         | |- silent (request _ _) => apply silent_request; reflexivity
         | |- silent history => apply silent_history
         | |- silent (modify_app _) => apply silent_modify_app
         | |- silent (modify_tracker _) => apply silent_modify_tracker
         | |- silent (modify_calendar _) => apply silent_modify_calendar
         | |- silent (if ?b then _ else _) => destruct b
         end.

Lemma silent_fetchCourses : silent (fetchCourses env).
Proof. unfold fetchCourses, setCourses. silence. Qed.

Lemma silent_fetchAnalytics : silent (fetchAnalytics env).
Proof. unfold fetchAnalytics, setAnalytics. silence. Qed.

Lemma silent_fetchDailyLogs : silent (fetchDailyLogs env).
Proof. unfold fetchDailyLogs, setDailyLogs. silence. Qed.

Lemma silent_fetchPlannedSessions : silent (fetchPlannedSessions env).
Proof. unfold fetchPlannedSessions, setPlannedSessions. silence. Qed.

(** A request followed by silent work: the request comes first in what is
    added to the trace, and no write request follows it. *)
Lemma request_then_silent {A} e (k : bool -> M A) w :
  (forall ok, silent (k ok)) ->
  exists rest,
    trace (exec (bind (request env e) k) w) = trace w ++ e :: rest /\
    mutations rest = [].
Proof.
  intros Hk. unfold exec, bind, request.
  destruct (Hk (succeeds env (trace w ++ [e]))
               (mkWorld (app w) (tracker w) (calendar w) (trace w ++ [e])))
    as (rest & Ht & Hm).
  exists rest. unfold exec in Ht. rewrite Ht. cbn [trace].
  rewrite <- app_assoc. split; [reflexivity|exact Hm].
Qed.

Lemma updateCourseProgress_trace courseId progress st w :
  exists rest,
    trace (exec (updateCourseProgress env courseId progress st) w)
    = trace w ++ Patch courseId progress st :: rest /\
    mutations rest = [].
Proof.
  unfold updateCourseProgress. apply request_then_silent.
  intros [|]; silence; first [apply silent_fetchCourses | apply silent_fetchAnalytics].
Qed.

Lemma silent_onLogAdded : silent (onLogAdded env).
Proof.
  unfold onLogAdded. silence;
    first [apply silent_fetchDailyLogs | apply silent_fetchCourses
          | apply silent_fetchAnalytics].
Qed.

(** The error path of the progress update: logged to the console only. *)
Lemma updateCourseProgress_failure courseId progress st w :
  succeeds env (trace w ++ [Patch courseId progress st]) = false ->
  exec (updateCourseProgress env courseId progress st) w
  = mkWorld (app w) (tracker w) (calendar w)
      (trace w ++ [Patch courseId progress st;
                   ConsoleError "Error updating course progress:"]).
Proof.
  intros H. run. rewrite H. cbn. rewrite <- app_assoc. reflexivity.
Qed.

Lemma handleSubmit_failure w :
  let st := tracker w in
  let valid := List.filter valid_entry (selectedCourses st) in
  let post := PostLog (mkLogPayload (selectedDate st) valid (notes st) (mood st)) in
  valid <> [] ->
  succeeds env (trace w ++ [post]) = false ->
  exec (handleSubmit env) w
  = mkWorld (app w) (tracker w) (calendar w)
      (trace w ++ [post; ConsoleError "Error saving log:"; Alert "ERROR SAVING LOG"]).
Proof.
  intros st valid post Hv H. subst st valid post. run.
  destruct (selectedCourses (tracker w)) as [|e l] eqn:E; [contradiction|].
  cbn [length Nat.eqb]. rewrite <- E in *.
  destruct (List.filter valid_entry (selectedCourses (tracker w))) as [|v vs] eqn:Ev;
    [contradiction|].
  cbn [length Nat.eqb fst snd app tracker calendar trace]. rewrite H.
  cbn. rewrite <- !app_assoc. reflexivity.
Qed.

Lemma handleAddSession_failure w d :
  let st := calendar w in
  let post := PostPlanned (mkPlannedPayload (selectedCourse st) d
                             (estimatedTime st) (planNotes st)) in
  selectedCourse st <> EmptyString -> planDate st = Some d -> d <> EmptyString ->
  succeeds env (trace w ++ [post]) = false ->
  exec (handleAddSession env) w
  = mkWorld (app w) (tracker w) (calendar w)
      (trace w ++ [post; ConsoleError "Error adding session:";
                   Alert "ERROR PLANNING SESSION"]).
Proof.
  intros st post Hc Hd Hne H. subst st post. run. rewrite Hd in *. cbn.
  destruct (selectedCourse (calendar w)) eqn:Ec; [contradiction|].
  destruct d; [contradiction|]. cbn in *. rewrite H.
  cbn. rewrite <- !app_assoc. reflexivity.
Qed.

Lemma handleDeleteSession_failure sessionId w :
  let t1 := trace w ++ [Confirm "DELETE THIS PLANNED SESSION?"] in
  confirms env t1 = true ->
  succeeds env (t1 ++ [DeletePlanned sessionId]) = false ->
  exec (handleDeleteSession env sessionId) w
  = mkWorld (app w) (tracker w) (calendar w)
      (trace w ++ [Confirm "DELETE THIS PLANNED SESSION?"; DeletePlanned sessionId;
                   ConsoleError "Error deleting session:"]).
Proof.
  intros t1 Hc H. subst t1. run. rewrite Hc. cbn. rewrite H.
  cbn. rewrite <- !app_assoc. reflexivity.
Qed.
End ViewFacts.

(** C6. [handleStartCourse] on a course whose status is "Not Started"
    issues the progress update with progress 5 and status "In Progress" and
    no other write request; on a course in any other status it does nothing
    at all. [handleCompleteCourse] issues, whatever the status, the update
    with progress 100 and status "Completed", and no other write request. *)
Theorem start_and_complete_transitions (env : View.Env) (course : Course) (w : View.World) :
  (status course = "Not Started" ->
   exists rest,
     View.trace (View.exec (View.handleStartCourse env course) w)
     = View.trace w ++ View.Patch (course_id course) 5 "In Progress" :: rest /\
     View.mutations rest = []) /\
  (status course <> "Not Started" ->
   View.exec (View.handleStartCourse env course) w = w) /\
  (exists rest,
     View.trace (View.exec (View.handleCompleteCourse env course) w)
     = View.trace w ++ View.Patch (course_id course) 100 "Completed" :: rest /\
     View.mutations rest = []).
Proof.
  split; [|split].
  - intros Hs. unfold View.handleStartCourse. rewrite Hs. cbn [String.eqb].
    change (String.eqb "Not Started" "Not Started") with true. cbv iota.
    destruct (updateCourseProgress_trace env (course_id course) 5 "In Progress" w)
      as (rest & Ht & Hm).
    exists rest. split; assumption.
  - intros Hs. unfold View.handleStartCourse.
    apply String.eqb_neq in Hs. rewrite Hs. reflexivity.
  - unfold View.handleCompleteCourse.
    destruct (updateCourseProgress_trace env (course_id course) 100 "Completed" w)
      as (rest & Ht & Hm).
    exists rest. split; assumption.
Qed.

(** C7. The status derived by the manual progress update is "Completed"
    from 100 up, "In Progress" strictly between 0 and 100 and "Not Started"
    at 0; the update is issued for the shown course with that status whatever
    the course's own status is, so progress 100 is always sent as
    "Completed". *)
Theorem manual_update_status (progress : Z) :
  ((100 <= progress)%Z -> View.derived_status progress = "Completed") /\
  ((0 < progress < 100)%Z -> View.derived_status progress = "In Progress") /\
  (progress = 0%Z -> View.derived_status progress = "Not Started") /\
  (forall env shown w, exists rest,
     View.trace (View.exec (View.handleUpdate progress (View.onUpdate env shown)) w)
     = View.trace w ++
       View.Patch (course_id shown) progress (View.derived_status progress) :: rest /\
     View.mutations rest = []) /\
  (forall env shown w, progress = 100%Z -> exists rest,
     View.trace (View.exec (View.handleUpdate progress (View.onUpdate env shown)) w)
     = View.trace w ++ View.Patch (course_id shown) 100 "Completed" :: rest).
Proof.
  assert (Hrun : forall env shown w, exists rest,
     View.trace (View.exec (View.handleUpdate progress (View.onUpdate env shown)) w)
     = View.trace w ++
       View.Patch (course_id shown) progress (View.derived_status progress) :: rest /\
     View.mutations rest = []).
  { intros env shown w.
    destruct (updateCourseProgress_trace env (course_id shown) progress
                (View.derived_status progress) w) as (rest & Ht & Hm).
    exists rest. split; [|exact Hm]. rewrite <- Ht.
    unfold View.handleUpdate, View.onUpdate, View.exec, View.bind,
      View.setShowCourseDetail, View.modify_app.
    destruct (View.updateCourseProgress env (course_id shown) progress
                (View.derived_status progress) w). reflexivity. }
  unfold View.derived_status in *. repeat split.
  - intros H. destruct (Z.geb_spec progress 100); [reflexivity|lia].
  - intros H. destruct (Z.geb_spec progress 100); [lia|].
    destruct (Z.gtb_spec progress 0); [reflexivity|lia].
  - intros ->. reflexivity.
  - exact Hrun.
  - intros env shown w ->. destruct (Hrun env shown w) as (rest & Ht & _).
    exists rest. exact Ht.
Qed.

(** ** Daily log submission *)


Lemma filter_nil_iff {A} (f : A -> bool) (l : list A) :
  List.filter f l = [] <-> forall x, In x l -> f x = false.
Proof.
  induction l as [|a l IH]; simpl; [tauto|].
  destruct (f a) eqn:E.
  - split; [discriminate|]. intros H. specialize (H a (or_introl eq_refl)). congruence.
  - rewrite IH. split.
    + intros H x [<-|Hx]; auto.
    + intros H x Hx. apply H. right. exact Hx.
Qed.



(** The two submissions of the specification's example, against a backend
    that rejects every request: the first posts only its first entry, the
    second is refused before any request. *)
Example handleSubmit_examples :
  let e1 := mkEntry "c1" "HTML" 30 EmptyString in
  let e2 := mkEntry EmptyString EmptyString 0 EmptyString in
  let e3 := mkEntry "c1" "HTML" 0 EmptyString in
  let world entries :=
    View.mkWorld (View.app View.sample_world)
      (View.mkTracker "2025-01-15" entries EmptyString None)
      (View.calendar View.sample_world) [] in
  View.requests (View.trace (View.exec (View.handleSubmit View.failing_env) (world [e1; e2])))
  = [View.PostLog (View.mkLogPayload "2025-01-15" [e1] EmptyString None)] /\
  View.trace (View.exec (View.handleSubmit View.failing_env) (world [e3]))
  = [View.Alert "SELECT COURSES AND ADD TIME"].
Proof. split; reflexivity. Qed.

(** ** Failure of a mutation *)

(** C9. When the backend rejects the request, the daily-log submission and
    the add-session handler alert the user, but the course progress update
    and the session deletion only write to the console: no alert is raised.
    In all four cases the state held by the view is left as it was. *)
Theorem mutation_failure_paths :
  let c1 := mkCourse "c1" "HTML" 1 "Foundations" "Not Started" 0 "MUST" in
  View.exec (View.handleStartCourse View.failing_env c1) View.sample_world
  = View.after [View.Patch "c1" 5 "In Progress";
                View.ConsoleError "Error updating course progress:"] /\
  View.alerts (View.trace
    (View.exec (View.handleStartCourse View.failing_env c1) View.sample_world)) = [] /\
  View.exec (View.handleDeleteSession View.failing_env "s1") View.sample_world
  = View.after [View.Confirm "DELETE THIS PLANNED SESSION?"; View.DeletePlanned "s1";
                View.ConsoleError "Error deleting session:"] /\
  View.alerts (View.trace
    (View.exec (View.handleDeleteSession View.failing_env "s1") View.sample_world)) = [] /\
  View.alerts (View.trace (View.exec (View.handleSubmit View.failing_env) View.sample_world))
  = [View.Alert "ERROR SAVING LOG"] /\
  View.alerts (View.trace (View.exec (View.handleAddSession View.failing_env) View.sample_world))
  = [View.Alert "ERROR PLANNING SESSION"] /\
  View.app (View.exec (View.handleSubmit View.failing_env) View.sample_world)
  = View.app View.sample_world /\
  View.app (View.exec (View.handleAddSession View.failing_env) View.sample_world)
  = View.app View.sample_world.
Proof. repeat apply conj; reflexivity. Qed.

(** ** Courses offered for new logs and sessions *)

(** C10. The courses offered in the daily-tracker form and in the
    plan-session dropdown are exactly the courses of the list whose status
    is not "Completed", so every non-empty option value of either dropdown is
    the id of a listed course that is not completed. *)
Theorem completed_courses_not_offered (cs : list Course) :
  (forall c, In c (View.tracker_courses cs) <-> In c cs /\ status c <> "Completed") /\
  (forall c, In c (View.session_courses cs) <-> In c cs /\ status c <> "Completed") /\
  (forall v, In v (View.option_values (View.tracker_courses cs)) ->
     v = EmptyString \/ exists c, In c cs /\ course_id c = v /\ status c <> "Completed") /\
  (forall v, In v (View.option_values (View.session_courses cs)) ->
     v = EmptyString \/ exists c, In c cs /\ course_id c = v /\ status c <> "Completed").
Proof.
  assert (H : forall c, In c (List.filter (fun c => str_neq (status c) "Completed") cs)
                        <-> In c cs /\ status c <> "Completed").
  { intros c. rewrite filter_In, str_neq_true. reflexivity. }
  assert (Hv : forall v,
             In v (View.option_values
                     (List.filter (fun c => str_neq (status c) "Completed") cs)) ->
             v = EmptyString \/ exists c, In c cs /\ course_id c = v /\ status c <> "Completed").
  { intros v [<-|Hin]; [left; reflexivity|]. right.
    apply in_map_iff in Hin as (c & <- & Hc). apply H in Hc as [Hc Hs].
    exists c. repeat split; assumption. }
  split; [exact H|]. split; [exact H|]. split; exact Hv.
Qed.

Example tracker_courses_sample :
  let c1 := mkCourse "c1" "HTML" 1 "Foundations" "Completed" 100 "MUST" in
  let c2 := mkCourse "c2" "CSS" 1 "Foundations" "In Progress" 40 "Optional" in
  let c3 := mkCourse "c3" "React" 2 "Frameworks" "Not Started" 0 "MUST" in
  View.tracker_courses [c1; c2; c3] = [c2; c3] /\
  View.option_values (View.session_courses [c1; c2; c3]) = [EmptyString; "c2"; "c3"].
Proof. split; reflexivity. Qed.

(** ** Streak *)

Section StreakFacts.
Import Streak.
Variable logs : gset Z.

Lemma walk_back_le fuel d : (walk_back fuel logs d <= fuel)%nat.
Proof.
  revert d. induction fuel as [|f IH]; intros d; simpl; [lia|].
  case_bool_decide; [|lia]. specialize (IH (d - 1)%Z). lia.
Qed.

Lemma walk_back_logged fuel d (i : nat) :
  (i < walk_back fuel logs d)%nat -> (d - Z.of_nat i)%Z ∈ logs.
Proof.
  revert d i. induction fuel as [|f IH]; intros d i; simpl; [lia|].
  case_bool_decide as Hd; [|lia]. intros Hi. destruct i as [|i].
  - replace (d - Z.of_nat 0)%Z with d by lia. exact Hd.
  - replace (d - Z.of_nat (S i))%Z with (d - 1 - Z.of_nat i)%Z by lia.
    apply IH. lia.
Qed.

Lemma walk_back_gap fuel d :
  (walk_back fuel logs d < fuel)%nat ->
  (d - Z.of_nat (walk_back fuel logs d))%Z ∉ logs.
Proof.
  revert d. induction fuel as [|f IH]; intros d; simpl; [lia|].
  case_bool_decide as Hd.
  - intros Hlt.
    replace (d - Z.of_nat (S (walk_back f logs (d - 1))))%Z
      with (d - 1 - Z.of_nat (walk_back f logs (d - 1)))%Z by lia.
    apply IH. lia.
  - intros _. replace (d - Z.of_nat 0)%Z with d by lia. exact Hd.
Qed.

(** A set that holds the [n] consecutive days ending at [d] has at least
    [n] elements. *)
Lemma consecutive_days_size d (n : nat) :
  (forall i : nat, (i < n)%nat -> (d - Z.of_nat i)%Z ∈ logs) -> (n <= size logs)%nat.
Proof.
  intros H.
  set (days := (fun i : nat => (d - Z.of_nat i)%Z) <$> seq 0 n).
  assert (Hlen : length days = n) by (unfold days; rewrite length_fmap, length_seq; reflexivity).
  assert (Hnd : NoDup days).
  { unfold days. apply NoDup_fmap_2; [|apply NoDup_seq]. intros i j Hij. lia. }
  assert (Hsub : days ⊆+ elements logs).
  { apply NoDup_submseteq; [exact Hnd|]. intros x Hx. unfold days in Hx.
    apply list_elem_of_fmap in Hx as (i & -> & Hi). apply elem_of_seq in Hi.
    apply elem_of_elements, H. lia. }
  apply submseteq_length in Hsub. rewrite Hlen in Hsub. exact Hsub.
Qed.

Lemma run_ending_at_is_run d : is_run logs d (run_ending_at logs d).
Proof.
  unfold is_run, run_ending_at. split; [intros i; apply walk_back_logged|].
  pose proof (walk_back_le (size logs) d) as Hle.
  destruct (decide (walk_back (size logs) logs d < size logs)%nat) as [Hlt|Hge];
    [apply walk_back_gap, Hlt|].
  assert (Heq : walk_back (size logs) logs d = size logs) by lia.
  rewrite Heq. intros Hin.
  assert (S (size logs) <= size logs)%nat; [|lia].
  apply (consecutive_days_size d). intros i Hi.
  destruct (decide (i = size logs)) as [->|Hne]; [exact Hin|].
  apply (walk_back_logged (size logs)). lia.
Qed.

Lemma is_run_unique d n1 n2 : is_run logs d n1 -> is_run logs d n2 -> n1 = n2.
Proof.
  intros [H1 G1] [H2 G2].
  destruct (lt_eq_lt_dec n1 n2) as [[Hlt|Heq]|Hgt]; [|exact Heq|].
  - destruct G1. apply H2, Hlt.
  - destruct G2. apply H1, Hgt.
Qed.

Lemma foldr_max_spec (d : Z) (l : list Z) :
  foldr Z.max d l ∈ d :: l /\ forall x, x ∈ d :: l -> (x <= foldr Z.max d l)%Z.
Proof.
  induction l as [|a l [IHin IHmax]]; simpl.
  - split; [left|]. intros x Hx. apply list_elem_of_singleton in Hx. lia.
  - split.
    + destruct (Z.max_spec a (foldr Z.max d l)) as [[_ ->]|[_ ->]].
      * apply elem_of_cons in IHin as [->|Hin]; [left|]. right. right. exact Hin.
      * right. left.
    + intros x Hx. apply elem_of_cons in Hx as [->|Hx].
      * specialize (IHmax d (list_elem_of_here _ _)). lia.
      * apply elem_of_cons in Hx as [->|Hx]; [lia|].
        specialize (IHmax x (list_elem_of_further _ _ _ Hx)). lia.
Qed.

Lemma most_recent_None : most_recent logs = None <-> logs = ∅.
Proof.
  unfold most_recent. destruct (elements logs) as [|d l] eqn:E.
  - split; [intros _|reflexivity]. apply elements_empty_inv in E.
    apply leibniz_equiv, E.
  - split; [discriminate|]. intros ->. rewrite elements_empty in E. discriminate.
Qed.

Lemma most_recent_Some m :
  most_recent logs = Some m <-> m ∈ logs /\ forall x, x ∈ logs -> (x <= m)%Z.
Proof.
  unfold most_recent. destruct (elements logs) as [|d l] eqn:E.
  - split; [discriminate|]. intros [Hm _]. apply elem_of_elements in Hm.
    rewrite E in Hm. apply elem_of_nil in Hm. destruct Hm.
  - destruct (foldr_max_spec d l) as [Hin Hmax]. rewrite <- E in Hin, Hmax.
    split.
    + intros [= <-]. split; [apply elem_of_elements, Hin|].
      intros x Hx. apply Hmax, elem_of_elements, Hx.
    + intros [Hm Hle]. f_equal. apply elem_of_elements in Hin.
      apply elem_of_elements in Hm.
      specialize (Hle _ Hin). apply Hmax in Hm. lia.
Qed.
End StreakFacts.

Lemma most_recent_three (t : Z) :
  Streak.most_recent {[t; (t - 1)%Z; (t - 2)%Z]} = Some t.
Proof.
  apply most_recent_Some. split; [set_solver|].
  intros x Hx.
  apply elem_of_union in Hx as [Hx|Hx]; [apply elem_of_union in Hx as [Hx|Hx]|];
    apply elem_of_singleton in Hx; lia.
Qed.

Lemma is_run_three (t : Z) : Streak.is_run {[t; (t - 1)%Z; (t - 2)%Z]} t 3.
Proof.
  split.
  - intros i Hi. destruct i as [|[|[|i]]]; [| | |lia].
    + replace (t - Z.of_nat 0)%Z with t by lia. set_solver.
    + replace (t - Z.of_nat 1)%Z with (t - 1)%Z by lia. set_solver.
    + replace (t - Z.of_nat 2)%Z with (t - 2)%Z by lia. set_solver.
  - intros Hx.
    apply elem_of_union in Hx as [Hx|Hx]; [apply elem_of_union in Hx as [Hx|Hx]|];
      apply elem_of_singleton in Hx; lia.
Qed.

(** C1 (as amended). The streak is 0 when there is no log. Otherwise, with
    [m] the most recent logged day, it is 0 exactly when [m] is more than one
    day before today, and else it is the length of the unbroken run of logged
    days that ends at [m]; when [m] is today it is the count obtained by
    walking backward from today up to the first gap. Logs on today,
    yesterday and the day before give a streak of 3. *)
Theorem current_streak_spec (today : Z) (logs : gset Z) :
  Streak.current_streak today ∅ = 0%nat /\
  (forall m, Streak.most_recent logs = Some m ->
     (Streak.current_streak today logs = 0%nat <-> (today - m > 1)%Z) /\
     ((today - m <= 1)%Z -> Streak.is_run logs m (Streak.current_streak today logs)) /\
     (m = today ->
      Streak.current_streak today logs = Streak.streak_from_today today logs)) /\
  Streak.is_run logs today (Streak.streak_from_today today logs) /\
  Streak.current_streak today {[today; (today - 1)%Z; (today - 2)%Z]} = 3%nat.
Proof.
  split; [reflexivity|]. split; [|split].
  - intros m Hm. unfold Streak.current_streak. rewrite Hm.
    pose proof (run_ending_at_is_run logs m) as Hrun.
    apply most_recent_Some in Hm as [Hin _].
    destruct (Z.gtb_spec (today - m) 1) as [Hgt|Hle].
    + split; [split; [lia|reflexivity]|]. split; [lia|]. intros ->. lia.
    + split; [|split].
      * split; [|lia]. intros H0. rewrite H0 in Hrun.
        destruct Hrun as [_ Hgap]. exfalso. apply Hgap.
        replace (m - Z.of_nat 0)%Z with m by lia. exact Hin.
      * intros _. exact Hrun.
      * intros ->. reflexivity.
  - apply run_ending_at_is_run.
  - unfold Streak.current_streak. rewrite most_recent_three.
    destruct (Z.gtb_spec (today - today) 1) as [Hgt|_]; [lia|].
    apply (is_run_unique {[today; (today - 1)%Z; (today - 2)%Z]} today).
    + apply run_ending_at_is_run.
    + apply is_run_three.
Qed.

(** With a log on yesterday only, the walk backward from today stops at
    once and counts 0, although the most recent logged day is just one day in
    the past, for which the fixed rule reports a streak of 1: the two
    descriptions of the streak are not equivalent. *)
Lemma streak_readings_differ :
  Streak.most_recent {[9%Z]} = Some 9%Z /\
  Streak.streak_from_today 10 {[9%Z]} = 0%nat /\
  Streak.current_streak 10 {[9%Z]} = 1%nat /\
  Streak.current_streak 10 {[9%Z]} <> Streak.streak_from_today 10 {[9%Z]}.
Proof. repeat apply conj; vm_compute; congruence. Qed.

Example streak_with_gap :
  Streak.current_streak 10 {[10%Z; 9%Z; 7%Z; 6%Z]} = 2%nat /\
  Streak.current_streak 10 {[8%Z; 7%Z]} = 0%nat /\
  Streak.current_streak 10 {[9%Z; 8%Z; 7%Z]} = 3%nat.
Proof. repeat apply conj; vm_compute; reflexivity. Qed.

(** ** Dates *)

Section DateFacts.
Import JSDate Calendar.
Local Open Scope Z_scope.

Ltac zlia := Z.div_mod_to_equations; lia.

Lemma DayFromYear_succ y : DayFromYear (y + 1) = DayFromYear y + DaysInYear y.
Proof.
  unfold DayFromYear, DaysInYear.
  destruct (Z.eqb_spec (y mod 4) 0), (Z.eqb_spec (y mod 100) 0), (Z.eqb_spec (y mod 400) 0); cbn [negb]; zlia.
Qed.

Lemma DayFromYear_mono y1 y2 : y1 <= y2 -> DayFromYear y1 <= DayFromYear y2.
Proof. unfold DayFromYear. intros. zlia. Qed.

Lemma YearFromTime_spec d :
  DayFromYear (YearFromTime d) <= d < DayFromYear (YearFromTime d + 1).
Proof.
  unfold YearFromTime.
  destruct (Z.leb_spec (DayFromYear (1970 + 400 * d / 146097 + 1)) d).
  - split; [lia|]. unfold DayFromYear in *. zlia.
  - destruct (Z.leb_spec (DayFromYear (1970 + 400 * d / 146097)) d).
    + lia.
    + split; [|replace (1970 + 400 * d / 146097 - 1 + 1) with (1970 + 400 * d / 146097) by lia; lia].
      unfold DayFromYear in *. zlia.
Qed.

Lemma YearFromTime_unique d y :
  DayFromYear y <= d < DayFromYear (y + 1) -> YearFromTime d = y.
Proof.
  intros H. pose proof (YearFromTime_spec d) as H'.
  destruct (Z.lt_trichotomy (YearFromTime d) y) as [Hlt|[Heq|Hgt]]; [|exact Heq|].
  - pose proof (DayFromYear_mono (YearFromTime d + 1) y ltac:(lia)). lia.
  - pose proof (DayFromYear_mono (y + 1) (YearFromTime d) ltac:(lia)). lia.
Qed.


Lemma zeller_sum Y :
  Y mod 100 + (Y mod 100) / 4 + (Y / 100) / 4 + 5 * (Y / 100)
  = Y + Y / 4 - Y / 100 + Y / 400 - 119 * (Y / 100).
Proof. zlia. Qed.

Lemma DayFromYear_alt y :
  DayFromYear y = 365 * y + (y - 1) / 4 - (y - 1) / 100 + (y - 1) / 400 - 719527.
Proof. unfold DayFromYear. zlia. Qed.

Lemma leap_floor y :
  y / 4 - y / 100 + y / 400
  = (y - 1) / 4 - (y - 1) / 100 + (y - 1) / 400 + LeapDay y.
Proof.
  unfold LeapDay, DaysInYear.
  destruct (Z.eqb_spec (y mod 4) 0), (Z.eqb_spec (y mod 100) 0), (Z.eqb_spec (y mod 400) 0);
    cbn [negb Z.eqb Pos.eqb]; zlia.
Qed.

Lemma LeapDay_range y : LeapDay y = 0 \/ LeapDay y = 1.
Proof. unfold LeapDay. destruct (DaysInYear y =? 366); auto. Qed.

Lemma zeller_ok y m : 0 <= m <= 11 -> WeekDay (MakeDay y m 1) = zeller y m 1.
Proof.
  intros Hm. unfold WeekDay, MakeDay, zeller.
  rewrite (Z.div_small m 12), (Z.mod_small m 12), Z.add_0_r by lia.
  rewrite DayFromYear_alt.
  destruct (Z.ltb_spec m 2) as [Hlt|Hge].
  -
    pose proof (zeller_sum (y - 1)) as Hs.
    set (S1 := ((y - 1) mod 100)) in *. set (S2 := S1 / 4) in *.
    set (J := (y - 1) / 100) in *. set (S3 := J / 4) in *.
    set (A := (y - 1) / 4) in *. set (C := (y - 1) / 400) in *.
    clearbody S1 S2 J S3 A C.
    assert (m = 0 \/ m = 1) as [-> | ->] by lia; cbn [MonthStart];
      change (13 * (0 + 13 + 1) / 5) with 36; change (13 * (1 + 13 + 1) / 5) with 39; zlia.
  - pose proof (zeller_sum y) as Hs. pose proof (leap_floor y) as Hl.
    pose proof (LeapDay_range y) as HL.
    set (S1 := (y mod 100)) in *. set (S2 := S1 / 4) in *.
    set (J := y / 100) in *. set (S3 := J / 4) in *.
    set (A := (y - 1) / 4) in *. set (C := (y - 1) / 400) in *. set (B := (y - 1) / 100) in *.
    set (A' := y / 4) in *. set (C' := y / 400) in *. set (L := LeapDay y) in *.
    clearbody S1 S2 J S3 A C B A' C' L.
    assert (m = 2 \/ m = 3 \/ m = 4 \/ m = 5 \/ m = 6 \/ m = 7 \/ m = 8 \/ m = 9 \/ m = 10 \/ m = 11) as Hc by lia.
    destruct Hc as [->|[->|[->|[->|[->|[->|[->|[->|[->| ->]]]]]]]]]; cbn [MonthStart];
    match goal with |- context [13 * ?e / 5] => let v := eval vm_compute in (13 * e / 5) in change (13 * e / 5) with v end; zlia.
Qed.

Lemma DaysInYear_LeapDay y : DaysInYear y = 365 + LeapDay y.
Proof.
  unfold LeapDay, DaysInYear.
  destruct (negb (y mod 4 =? 0)); [reflexivity|].
  destruct (negb (y mod 100 =? 0)); [reflexivity|].
  destruct (negb (y mod 400 =? 0)); reflexivity.
Qed.

Lemma LeapDay_is_leap y : LeapDay y = if is_leap y then 1 else 0.
Proof.
  unfold LeapDay, DaysInYear, is_leap.
  destruct (y mod 4 =? 0); [|reflexivity].
  destruct (y mod 100 =? 0); [|reflexivity].
  destruct (y mod 400 =? 0); reflexivity.
Qed.

Lemma month_cases m :
  0 <= m <= 11 ->
  m = 0 \/ m = 1 \/ m = 2 \/ m = 3 \/ m = 4 \/ m = 5 \/ m = 6 \/ m = 7 \/
  m = 8 \/ m = 9 \/ m = 10 \/ m = 11.
Proof. lia. Qed.

Ltac each_month H :=
  destruct (month_cases _ H) as [->|[->|[->|[->|[->|[->|[->|[->|[->|[->|[->| ->]]]]]]]]]]].

Lemma days_in_month_MonthStart y m :
  0 <= m <= 11 ->
  MonthStart (LeapDay y) m + days_in_month y m
  = if m =? 11 then DaysInYear y else MonthStart (LeapDay y) (m + 1).
Proof.
  intros Hm. rewrite DaysInYear_LeapDay, LeapDay_is_leap.
  each_month Hm; cbn; destruct (is_leap y); reflexivity.
Qed.

Lemma MonthStart_nonneg y m : 0 <= m <= 11 -> 0 <= MonthStart (LeapDay y) m.
Proof.
  intros Hm. pose proof (LeapDay_range y). each_month Hm; cbn [MonthStart]; lia.
Qed.

Lemma days_in_month_pos y m : 28 <= days_in_month y m <= 31.
Proof.
  unfold days_in_month.
  destruct m as [|p|p]; try (destruct (is_leap y); lia).
  do 4 (try destruct p as [p|p|]); try (destruct (is_leap y); lia); lia.
Qed.

(** The day number of a civil date reads back as that date. *)
Lemma civil_roundtrip y m date :
  0 <= m <= 11 -> 1 <= date <= days_in_month y m ->
  let d := DayFromYear y + MonthStart (LeapDay y) m + date - 1 in
  YearFromTime d = y /\ MonthFromTime d = m /\ DateFromTime d = date.
Proof.
  intros Hm Hd d.
  pose proof (LeapDay_range y) as HL.
  assert (Hy : YearFromTime d = y).
  { apply YearFromTime_unique. rewrite DayFromYear_succ, DaysInYear_LeapDay. subst d.
    revert Hd. rewrite LeapDay_is_leap in *.
    each_month Hm; cbn [MonthStart days_in_month]; destruct (is_leap y); lia. }
  assert (Hw : DayWithinYear d = MonthStart (LeapDay y) m + date - 1).
  { unfold DayWithinYear. rewrite Hy. subst d. lia. }
  assert (Hmn : MonthFromTime d = m).
  { unfold MonthFromTime, InLeapYear. rewrite Hw, Hy. revert Hd.
    rewrite LeapDay_is_leap in *.
    each_month Hm; cbn [MonthStart days_in_month]; destruct (is_leap y); intros Hd;
      repeat match goal with
             | |- context [?a <? ?b] => destruct (Z.ltb_spec a b); try lia
             end. }
  split; [exact Hy|]. split; [exact Hmn|].
  unfold DateFromTime, InLeapYear. rewrite Hmn, Hw, Hy.
  clear -Hm. each_month Hm; cbn [MonthStart]; lia.
Qed.

Lemma MonthFromTime_range d : 0 <= MonthFromTime d <= 11.
Proof.
  unfold MonthFromTime.
  repeat match goal with
         | |- context [?a <? ?b] => destruct (Z.ltb_spec a b); try lia
         end.
Qed.

Lemma MakeDay_first y m :
  0 <= m <= 11 -> MakeDay y m 1 = DayFromYear y + MonthStart (LeapDay y) m + 1 - 1.
Proof.
  intros Hm. unfold MakeDay.
  rewrite (Z.div_small m 12), (Z.mod_small m 12), Z.add_0_r by lia. reflexivity.
Qed.

(** Day 0 of the next month is the last day of the month. *)
Lemma MakeDay_last y m :
  0 <= m <= 11 ->
  MakeDay y (m + 1) 0
  = DayFromYear y + MonthStart (LeapDay y) m + days_in_month y m - 1.
Proof.
  intros Hm. unfold MakeDay.
  pose proof (days_in_month_MonthStart y m Hm) as H.
  destruct (Z.eqb_spec m 11) as [->|Hne].
  - change ((11 + 1) / 12) with 1. change ((11 + 1) mod 12) with 0.
    rewrite DayFromYear_succ. cbn [MonthStart] in *. lia.
  - rewrite (Z.div_small (m + 1) 12), (Z.mod_small (m + 1) 12), !Z.add_0_r by lia.
    lia.
Qed.

Lemma DayFromYear_bounds y :
  -270000 <= y <= 270000 -> -99400000 <= DayFromYear y <= 98000000.
Proof. unfold DayFromYear. intros. zlia. Qed.

Lemma getDaysInMonth_correct t :
  let y := getFullYear t in
  let m := getMonth t in
  ~ 0 <= y <= 99 -> -270000 <= y <= 270000 ->
  getDaysInMonth t = Some (days_in_month y m, zeller y m 1).
Proof.
  intros y m Hq Hr. unfold getDaysInMonth. fold y. fold m.
  assert (Hm : 0 <= m <= 11) by apply MonthFromTime_range.
  unfold Date_new.
  assert (Hyr : (if (0 <=? y) && (y <=? 99) then 1900 + y else y) = y).
  { destruct (Z.leb_spec 0 y), (Z.leb_spec y 99); cbn; lia. }
  rewrite Hyr, MakeDay_last, MakeDay_first by exact Hm.
  pose proof (DayFromYear_bounds y Hr) as Hb.
  pose proof (days_in_month_pos y m) as Hd.
  pose proof (MonthStart_nonneg y m Hm) as Hs.
  assert (Hs' : MonthStart (LeapDay y) m <= 335).
  { pose proof (LeapDay_range y). clear -Hm H. each_month Hm; cbn [MonthStart]; lia. }
  unfold TimeClip.
  destruct (Z.leb_spec (Z.abs (DayFromYear y + MonthStart (LeapDay y) m + 1 - 1)) 100000000);
    [|lia].
  destruct (Z.leb_spec (Z.abs (DayFromYear y + MonthStart (LeapDay y) m
                               + days_in_month y m - 1)) 100000000); [|lia].
  f_equal. f_equal.
  - unfold getDate. apply (civil_roundtrip y m (days_in_month y m)); lia.
  - unfold getDay. rewrite <- MakeDay_first by exact Hm. apply zeller_ok, Hm.
Qed.
(** The days 1 to [days_in_month y m] of a month read back as that year,
    month and day. *)
Lemma MakeDay_reads_back y m d :
  0 <= m <= 11 -> 1 <= d <= days_in_month y m ->
  getFullYear (MakeDay y m d) = y /\ getMonth (MakeDay y m d) = m /\
  getDate (MakeDay y m d) = d.
Proof.
  intros Hm Hd. unfold getFullYear, getMonth, getDate, MakeDay.
  rewrite (Z.div_small m 12), (Z.mod_small m 12), !Z.add_0_r by lia.
  apply civil_roundtrip; assumption.
Qed.

(** The day after the last one is the first day of the next month. *)
Lemma MakeDay_next_month y m :
  0 <= m <= 11 ->
  getMonth (MakeDay y m (days_in_month y m + 1)) = (m + 1) mod 12 /\
  getDate (MakeDay y m (days_in_month y m + 1)) = 1.
Proof.
  intros Hm.
  assert (Hnext : MakeDay y m (days_in_month y m + 1) = MakeDay y (m + 1) 1).
  { pose proof (MakeDay_last y m Hm) as Hl. unfold MakeDay in *.
    rewrite (Z.div_small m 12), (Z.mod_small m 12), !Z.add_0_r by lia. lia. }
  rewrite Hnext. unfold getMonth, getDate, MakeDay.
  assert (Hmn : 0 <= (m + 1) mod 12 <= 11) by (pose proof (Z.mod_pos_bound (m + 1) 12); lia).
  assert (Hone : 1 <= 1 <= days_in_month (y + (m + 1) / 12) ((m + 1) mod 12))
    by (pose proof (days_in_month_pos (y + (m + 1) / 12) ((m + 1) mod 12)); lia).
  destruct (civil_roundtrip (y + (m + 1) / 12) ((m + 1) mod 12) 1 Hmn Hone) as (_ & H2 & H3).
  split; assumption.
Qed.
End DateFacts.

(** ** Date strings *)

Section StringFacts.
Import JSString.

Lemma In_range lo n x : (lo <= x < lo + Z.of_nat n)%Z -> In x (range lo n).
Proof.
  intros H. unfold range. apply in_map_iff. exists (Z.to_nat (x - lo)).
  split; [lia|]. apply in_seq. lia.
Qed.

(** A year of four digits prints as its four digits. *)
Lemma ToString_four_digits y : (1000 <= y <= 9999)%Z -> ToString y = four_digits y.
Proof.
  intros H.
  assert (Hall : forallb (fun y => String.eqb (ToString y) (four_digits y))
                   (range 1000 (Z.to_nat 9000)) = true) by (vm_compute; reflexivity).
  rewrite forallb_forall in Hall. apply String.eqb_eq, Hall, In_range. lia.
Qed.

(** A number below 100, padded to two characters, is its two digits. *)
Lemma padStart_two_digits n :
  (0 <= n <= 99)%Z -> padStart 2 "0" (ToString n) = two_digits n.
Proof.
  intros H.
  assert (Hall : forallb (fun n => String.eqb (padStart 2 "0" (ToString n)) (two_digits n))
                   (range 0 100) = true) by (vm_compute; reflexivity).
  rewrite forallb_forall in Hall. apply String.eqb_eq, Hall, In_range. lia.
Qed.

Lemma iso_date_length y m d : String.length (iso_date y m d) = 10%nat.
Proof. reflexivity. Qed.
End StringFacts.

(** ** Calendar month grid *)

Section CalendarFacts.
Import JSDate JSString Calendar.
Variables (dailyLogs : list DailyLog) (plannedSessions : list PlannedSession).

Lemma day_cell_expected currentDate (i : nat) :
  (1000 <= getFullYear currentDate <= 9999)%Z -> (i < 99)%nat ->
  day_cell currentDate dailyLogs plannedSessions i
  = expected_cell (getFullYear currentDate) (getMonth currentDate)
      dailyLogs plannedSessions i.
Proof.
  intros Hy Hi. unfold day_cell, expected_cell, getActivityForDate, iso_date.
  pose proof (MonthFromTime_range currentDate) as Hm. fold (getMonth currentDate) in Hm.
  rewrite (ToString_four_digits _ Hy).
  rewrite !padStart_two_digits by lia. reflexivity.
Qed.

Lemma find_log_spec key :
  (forall l, List.find (fun l => String.eqb (log_date l) key) dailyLogs = Some l ->
             In l dailyLogs /\ log_date l = key) /\
  (List.find (fun l => String.eqb (log_date l) key) dailyLogs = None ->
   forall l, In l dailyLogs -> log_date l <> key) /\
  (forall l, In l dailyLogs -> log_date l = key ->
     (forall l', In l' dailyLogs -> log_date l' = key -> l' = l) ->
     List.find (fun l => String.eqb (log_date l) key) dailyLogs = Some l).
Proof.
  split; [|split].
  - intros l H. apply find_some in H as [Hin He]. apply String.eqb_eq in He. tauto.
  - intros H l Hin. apply String.eqb_neq. exact (find_none _ _ H l Hin).
  - intros l Hin Hk Huniq.
    destruct (List.find (fun l => String.eqb (log_date l) key) dailyLogs) as [l'|] eqn:E.
    + apply find_some in E as [Hin' He]. apply String.eqb_eq in He.
      f_equal. apply Huniq; assumption.
    + pose proof (find_none _ _ E l Hin) as Hn. cbn in Hn.
      apply String.eqb_neq in Hn. contradiction.
Qed.
End CalendarFacts.

(** C2 (as amended). For a month of a year of four digits (1000 to 9999),
    [getDaysInMonth] gives the number of days of the month and the weekday
    (0 = Sunday) of its first day: the days 1 up to that number are dates of
    this month, the next day is not, and the weekday is the one [getDay]
    gives for day 1 and the one of Zeller's congruence. The grid is that many blank cells followed
    by one cell per day, numbered 1 to the number of days, with nothing after
    them; the cell of day [d] carries the zero-padded [YYYY-MM-DD] string of
    that day, the first log of the list dated with that string (the only one
    when dates are unique, none when there is none) and exactly the planned
    sessions planned for that string, in their order. *)
Theorem calendar_grid_spec (currentDate : Z) (dailyLogs : list DailyLog)
    (plannedSessions : list PlannedSession) :
  let y := Calendar.getFullYear currentDate in
  let m := Calendar.getMonth currentDate in
  (1000 <= y <= 9999)%Z ->
  (0 <= m <= 11)%Z /\
  Calendar.getDaysInMonth currentDate
  = Some (JSDate.days_in_month y m, JSDate.zeller y m 1) /\
  (forall d, (1 <= d <= JSDate.days_in_month y m)%Z ->
     Calendar.getFullYear (JSDate.MakeDay y m d) = y /\
     Calendar.getMonth (JSDate.MakeDay y m d) = m /\
     Calendar.getDate (JSDate.MakeDay y m d) = d) /\
  Calendar.getMonth (JSDate.MakeDay y m (JSDate.days_in_month y m + 1)) <> m /\
  Calendar.getDay (JSDate.MakeDay y m 1) = JSDate.zeller y m 1 /\
  Calendar.grid currentDate dailyLogs plannedSessions
  = Some (map Calendar.Blank (seq 0 (Z.to_nat (JSDate.zeller y m 1))) ++
          map (Calendar.expected_cell y m dailyLogs plannedSessions)
              (seq 0 (Z.to_nat (JSDate.days_in_month y m)))) /\
  (forall key,
     (forall l, List.find (fun l => String.eqb (log_date l) key) dailyLogs = Some l ->
                In l dailyLogs /\ log_date l = key) /\
     (List.find (fun l => String.eqb (log_date l) key) dailyLogs = None ->
      forall l, In l dailyLogs -> log_date l <> key) /\
     (forall l, In l dailyLogs -> log_date l = key ->
        (forall l', In l' dailyLogs -> log_date l' = key -> l' = l) ->
        List.find (fun l => String.eqb (log_date l) key) dailyLogs = Some l) /\
     (forall p, In p (List.filter (fun p => String.eqb (planned_date p) key) plannedSessions)
                <-> In p plannedSessions /\ planned_date p = key)).
Proof.
  intros y m Hy.
  assert (Hm : (0 <= m <= 11)%Z) by apply MonthFromTime_range.
  assert (Hg : Calendar.getDaysInMonth currentDate
               = Some (JSDate.days_in_month y m, JSDate.zeller y m 1)).
  { apply getDaysInMonth_correct; fold y; lia. }
  split; [exact Hm|]. split; [exact Hg|].
  split; [intros d Hd; apply MakeDay_reads_back; assumption|].
  split.
  { destruct (MakeDay_next_month y m Hm) as [Hn _]. rewrite Hn.
    clear -Hm. intros H. apply (f_equal (fun x => (x - m) mod 12)%Z) in H.
    revert H. Z.div_mod_to_equations. lia. }
  split; [apply zeller_ok, Hm|]. split.
  - unfold Calendar.grid. rewrite Hg. f_equal. f_equal.
    apply map_ext_in. intros i Hi. apply in_seq in Hi.
    pose proof (days_in_month_pos y m) as Hd.
    apply day_cell_expected; [exact Hy|lia].
  - intros key. destruct (find_log_spec dailyLogs key) as (H1 & H2 & H3).
    split; [exact H1|]. split; [exact H2|]. split; [exact H3|].
    intros p. rewrite filter_In, String.eqb_eq. reflexivity.
Qed.

(** January 2025: a month of 31 days that starts on a Wednesday. *)
Lemma calendar_grid_spec_witness :
  (1000 <= Calendar.getFullYear 20103 <= 9999)%Z /\
  Calendar.getDaysInMonth 20103 = Some (31, 3)%Z.
Proof.
  assert (H : (1000 <= Calendar.getFullYear 20103 <= 9999)%Z) by (vm_compute; split; discriminate).
  split; [exact H|].
  exact (proj1 (proj2 (calendar_grid_spec 20103 [] [] H))).
Defined.

Example calendar_grid_january_2025 :
  exists cells,
    Calendar.grid 20103 [mkLog "2025-01-02" [] EmptyString None 30]
      [mkSession "s1" "c1" "2025-01-02" 60 EmptyString; mkSession "s2" "c2" "2025-01-02" 45 EmptyString]
    = Some ([Calendar.Blank 0; Calendar.Blank 1; Calendar.Blank 2;
             Calendar.DayCell 1 "2025-01-01" None [];
             Calendar.DayCell 2 "2025-01-02" (Some (mkLog "2025-01-02" [] EmptyString None 30))
               [mkSession "s1" "c1" "2025-01-02" 60 EmptyString;
                mkSession "s2" "c2" "2025-01-02" 45 EmptyString]] ++ cells) /\
    length cells = 29%nat.
Proof. eexists. split; [vm_compute; reflexivity | reflexivity]. Qed.

(** Outside the years of four digits the claim fails. In December of the
    year 99 the first day is a Tuesday (2), but the grid gets the 3 blank
    cells of December 1999, because [new Date] reads a year from 0 to 99 as
    1900 + year. In January of the year 999, and of the year 10000, the date
    string of day 1 is not the zero-padded [YYYY-MM-DD] string: the year is
    printed as it is. *)
Lemma calendar_grid_counterexample :
  let dec_0099 := JSDate.MakeDay 99 11 1 in
  let jan_0999 := JSDate.MakeDay 999 0 1 in
  let jan_10000 := JSDate.MakeDay 10000 0 1 in
  (Calendar.getFullYear dec_0099 = 99%Z /\ Calendar.getMonth dec_0099 = 11%Z /\
   Calendar.getDate dec_0099 = 1%Z /\ Calendar.getDay dec_0099 = 2%Z /\
   Calendar.getDaysInMonth dec_0099 = Some (31, 3)%Z) /\
  (Calendar.getFullYear jan_0999 = 999%Z /\ Calendar.getMonth jan_0999 = 0%Z /\
   Calendar.day_cell jan_0999 [] [] 0 = Calendar.DayCell 1 "999-01-01" None [] /\
   JSString.iso_date 999 1 1 = "0999-01-01") /\
  (Calendar.getFullYear jan_10000 = 10000%Z /\
   Calendar.day_cell jan_10000 [] [] 0 = Calendar.DayCell 1 "10000-01-01" None []).
Proof. repeat apply conj; vm_compute; reflexivity. Qed.

(** * Further properties *)

(** ** What handlers add to the trace and what they leave alone *)

Section EffectFacts.
Import View Effects.
Variable env : Env.

Lemma exec_seq {A} (m : M unit) (k : M A) w :
  exec (bind m (fun _ => k)) w = exec k (exec m w).
Proof. unfold exec, bind. destruct (m w) as [[] w1]. reflexivity. Qed.

Lemma exec_request {A} e (k : bool -> M A) w :
  exec (bind (request env e) k) w
  = exec (k (succeeds env (trace w ++ [e])))
         (mkWorld (app w) (tracker w) (calendar w) (trace w ++ [e])).
Proof. reflexivity. Qed.

Lemma exec_history {A} (k : list Event -> M A) w :
  exec (bind history k) w = exec (k (trace w)) w.
Proof. reflexivity. Qed.

Lemma exec_read_calendar {A} (k : CalendarState -> M A) w :
  exec (bind read_calendar k) w = exec (k (calendar w)) w.
Proof. reflexivity. Qed.

Lemma added_read_tracker {A} (k : TrackerState -> M A) w :
  added (bind read_tracker k) w = added (k (tracker w)) w.
Proof. reflexivity. Qed.

Lemma added_read_calendar {A} (k : CalendarState -> M A) w :
  added (bind read_calendar k) w = added (k (calendar w)) w.
Proof. reflexivity. Qed.

Lemma emits_ret {A} sel (a : A) : emits sel (ret a) [].
Proof. intros w. exists []. rewrite app_nil_r. split; reflexivity. Qed.

Lemma emits_bind {A B} sel (m : M A) (k : A -> M B) e1 e2 :
  emits sel m e1 -> (forall a, emits sel (k a) e2) -> emits sel (bind m k) (e1 ++ e2).
Proof.
  intros Hm Hk w. unfold exec, bind. destruct (Hm w) as (v1 & H1 & F1).
  unfold exec in H1. destruct (m w) as [a w1]. cbn [snd] in H1.
  destruct (Hk a w1) as (v2 & H2 & F2). unfold exec in H2.
  exists (v1 ++ v2). rewrite H2, H1, app_assoc. split; [reflexivity|].
  rewrite List.filter_app, F1, F2. reflexivity.
Qed.

Lemma emits_emit sel e : emits sel (emit e) (List.filter sel [e]).
Proof. intros w. exists [e]. split; reflexivity. Qed.

Lemma emits_request sel e : emits sel (request env e) (List.filter sel [e]).
Proof. intros w. exists [e]. split; reflexivity. Qed.

Lemma emits_still {A} sel (m : M A) :
  (forall w, trace (exec m w) = trace w) -> emits sel m [].
Proof. intros H w. exists []. rewrite app_nil_r. split; [apply H|reflexivity]. Qed.

Lemma emits_nil_r {A} sel (m : M A) es : emits sel m (es ++ []) -> emits sel m es.
Proof. rewrite app_nil_r. exact id. Qed.

(** What was added is what [emits] speaks of. *)
Lemma emits_added {A} sel (m : M A) es w : emits sel m es -> List.filter sel (added m w) = es.
Proof.
  intros H. destruct (H w) as (evs & Ht & Hf). unfold added.
  rewrite Ht, drop_app_length. exact Hf.
Qed.

Lemma added_request {A} sel e (k : bool -> M A) w es :
  emits sel (k (succeeds env (trace w ++ [e]))) es ->
  List.filter sel (added (bind (request env e) k) w) = List.filter sel [e] ++ es.
Proof.
  intros H. unfold added. rewrite exec_request.
  destruct (H (mkWorld (app w) (tracker w) (calendar w) (trace w ++ [e])))
    as (evs & Ht & Hf).
  rewrite Ht. cbn [trace]. rewrite <- app_assoc, drop_app_length.
  change ([e] ++ evs) with ([e] ++ evs). rewrite List.filter_app, Hf. reflexivity.
Qed.

Lemma keeps_bind {A B C} (proj : World -> C) (m : M A) (k : A -> M B) :
  keeps proj m -> (forall a, keeps proj (k a)) -> keeps proj (bind m k).
Proof.
  intros Hm Hk w. unfold exec, bind. specialize (Hm w). unfold exec in Hm.
  destruct (m w) as [a w1]. cbn [snd] in Hm. rewrite <- Hm. apply Hk.
Qed.

Lemma emits_fetch sel r (set : list Event -> M unit) msg :
  deaf sel -> (forall t w, trace (exec (set t) w) = trace w) ->
  emits sel (bind (request env (Get r))
               (fun ok => if ok then bind history set else emit (ConsoleError msg)))
        (List.filter sel [Get r]).
Proof.
  intros Hd Hs. apply emits_nil_r, emits_bind; [apply emits_request|].
  intros [|].
  - apply emits_still. intros w. rewrite exec_history. apply Hs.
  - replace (@nil Event) with (List.filter sel [ConsoleError msg]); [apply emits_emit|].
    simpl. rewrite Hd. reflexivity.
Qed.

Lemma emits_fetchCourses sel :
  deaf sel -> emits sel (fetchCourses env) (List.filter sel [Get RCourses]).
Proof. intros. apply emits_fetch; [assumption|reflexivity]. Qed.

Lemma emits_fetchAnalytics sel :
  deaf sel -> emits sel (fetchAnalytics env) (List.filter sel [Get RAnalytics]).
Proof. intros. apply emits_fetch; [assumption|reflexivity]. Qed.

Lemma emits_fetchDailyLogs sel :
  deaf sel -> emits sel (fetchDailyLogs env) (List.filter sel [Get RLogs]).
Proof. intros. apply emits_fetch; [assumption|reflexivity]. Qed.

Lemma emits_fetchPlannedSessions sel :
  deaf sel -> emits sel (fetchPlannedSessions env) (List.filter sel [Get RPlanned]).
Proof. intros. apply emits_fetch; [assumption|reflexivity]. Qed.

Lemma deaf_visible : deaf visible.
Proof. intros msg. reflexivity. Qed.

Lemma deaf_alert : deaf is_alert.
Proof. intros msg. reflexivity. Qed.

Lemma deaf_mutation : deaf is_mutation.
Proof. intros msg. reflexivity. Qed.
End EffectFacts.

(** ** Handlers of [App] *)

Section HandlerFacts.
Import View Effects.
Variable env : Env.

(** Split a frame goal along the structure of the handler. *)
Ltac frame :=
  repeat match goal with
         | |- keeps _ (bind _ _) => apply keeps_bind; [|intro]
         | |- keeps _ (if ?b then _ else _) => destruct b
         | |- keeps _ (match ?o with Some _ => _ | None => _ end) => destruct o
         | |- keeps _ _ => intro; reflexivity
         end.

Ltac open_handlers :=
  unfold Boot.initializeApp, onUpdate, updateCourseProgress, handleSubmit,
    handleAddSession, handleDeleteSession, onLogAdded, fetchCourses, fetchAnalytics,
    fetchDailyLogs, fetchPlannedSessions; cbv zeta.

(** X1. A progress update re-reads the courses and then the analytics
    exactly when the PATCH was accepted, whatever those two reads answer, and
    re-reads nothing when it was refused. It never raises an alert and never
    touches the daily logs, the planned sessions, the open detail modal or
    the two forms; after a refused PATCH the whole state is as before. *)
Theorem updateCourseProgress_refetch (courseId : string) (progress : Z) (st : string)
    (w : World) :
  let patch := Patch courseId progress st in
  let after := exec (updateCourseProgress env courseId progress st) w in
  List.filter visible (added (updateCourseProgress env courseId progress st) w)
  = (if succeeds env (trace w ++ [patch])
     then [patch; Get RCourses; Get RAnalytics] else [patch]) /\
  alerts (added (updateCourseProgress env courseId progress st) w) = [] /\
  (succeeds env (trace w ++ [patch]) = false -> app after = app w) /\
  dailyLogs (app after) = dailyLogs (app w) /\
  plannedSessions (app after) = plannedSessions (app w) /\
  showCourseDetail (app after) = showCourseDetail (app w) /\
  tracker after = tracker w /\ calendar after = calendar w.
Proof.
  intros patch after. subst patch after. split; [|split; [|split]].
  - unfold updateCourseProgress.
    destruct (succeeds env (trace w ++ [Patch courseId progress st])) eqn:E.
    + rewrite (added_request env visible _ _ w [Get RCourses; Get RAnalytics]);
        [reflexivity|]. rewrite E.
      apply (emits_bind visible _ _ [Get RCourses] [Get RAnalytics]).
      * apply (emits_fetchCourses env visible deaf_visible).
      * intros _. apply (emits_fetchAnalytics env visible deaf_visible).
    + rewrite (added_request env visible _ _ w []); [reflexivity|]. rewrite E.
      apply (emits_emit visible).
  - unfold updateCourseProgress, alerts.
    rewrite (added_request env is_alert _ _ w []); [reflexivity|].
    destruct (succeeds env (trace w ++ [Patch courseId progress st])).
    + apply (emits_bind is_alert _ _ [] []).
      * apply (emits_fetchCourses env is_alert deaf_alert).
      * intros _. apply (emits_fetchAnalytics env is_alert deaf_alert).
    + apply (emits_emit is_alert).
  - intros E. unfold updateCourseProgress. rewrite exec_request, E. reflexivity.
  - assert (F1 : keeps (fun w => dailyLogs (app w)) (updateCourseProgress env courseId progress st))
      by (open_handlers; frame).
    assert (F2 : keeps (fun w => plannedSessions (app w)) (updateCourseProgress env courseId progress st))
      by (open_handlers; frame).
    assert (F3 : keeps (fun w => showCourseDetail (app w)) (updateCourseProgress env courseId progress st))
      by (open_handlers; frame).
    assert (F4 : keeps tracker (updateCourseProgress env courseId progress st))
      by (open_handlers; frame).
    assert (F5 : keeps calendar (updateCourseProgress env courseId progress st))
      by (open_handlers; frame).
    repeat apply conj; [apply F1|apply F2|apply F3|apply F4|apply F5].
Qed.
(** X2. Saving from the detail modal always closes the modal, whether the
    PATCH was accepted or refused, and never raises an alert: a refused
    update closes the modal with the courses and analytics as they were. It
    never touches the daily logs, the planned sessions or the two forms. *)
Theorem onUpdate_closes_modal (shown : Course) (progress : Z) (st : string) (w : World) :
  let after := exec (onUpdate env shown progress st) w in
  showCourseDetail (app after) = None /\
  alerts (added (onUpdate env shown progress st) w) = [] /\
  (succeeds env (trace w ++ [Patch (course_id shown) progress st]) = false ->
   courses (app after) = courses (app w) /\ analytics (app after) = analytics (app w)) /\
  dailyLogs (app after) = dailyLogs (app w) /\
  plannedSessions (app after) = plannedSessions (app w) /\
  tracker after = tracker w /\ calendar after = calendar w.
Proof.
  intros after. subst after. split; [|split; [|split]].
  - unfold onUpdate. rewrite exec_seq. reflexivity.
  - unfold onUpdate, updateCourseProgress, alerts.
    apply emits_added. apply emits_nil_r, emits_bind.
    + apply (emits_bind is_alert _ _ [] []); [apply emits_request|].
      intros [|].
      * apply (emits_bind is_alert _ _ [] []).
        -- apply (emits_fetchCourses env is_alert deaf_alert).
        -- intros _. apply (emits_fetchAnalytics env is_alert deaf_alert).
      * apply (emits_emit is_alert).
    + intros _. apply emits_still. reflexivity.
  - intros E. unfold onUpdate, updateCourseProgress. rewrite exec_seq, exec_request, E.
    split; reflexivity.
  - assert (F1 : keeps (fun w => dailyLogs (app w)) (onUpdate env shown progress st))
      by (open_handlers; frame).
    assert (F2 : keeps (fun w => plannedSessions (app w)) (onUpdate env shown progress st))
      by (open_handlers; frame).
    assert (F4 : keeps tracker (onUpdate env shown progress st))
      by (open_handlers; frame).
    assert (F5 : keeps calendar (onUpdate env shown progress st))
      by (open_handlers; frame).
    repeat apply conj; [apply F1|apply F2|apply F4|apply F5].
Qed.

(** X3. An accepted daily log: once the POST has succeeded, the handler
    empties the entry rows, the notes and the mood but keeps the chosen date,
    starts the reads of the logs, the courses and the analytics in this
    order, and tells the user LOG SAVED! last, even if one of the reads
    fails. The planned sessions, the detail modal and the calendar form are
    untouched. *)
Theorem handleSubmit_success (w : World) :
  let st := tracker w in
  let valid := List.filter valid_entry (selectedCourses st) in
  let post := PostLog (mkLogPayload (selectedDate st) valid (notes st) (mood st)) in
  let after := exec (handleSubmit env) w in
  valid <> [] ->
  succeeds env (trace w ++ [post]) = true ->
  List.filter visible (added (handleSubmit env) w)
  = [post; Get RLogs; Get RCourses; Get RAnalytics; Alert "LOG SAVED!"] /\
  tracker after = mkTracker (selectedDate st) [] EmptyString None /\
  plannedSessions (app after) = plannedSessions (app w) /\
  showCourseDetail (app after) = showCourseDetail (app w) /\
  calendar after = calendar w.
Proof.
  intros st valid post after Hv Hok. subst st valid post after.
  assert (Hlen : (length (selectedCourses (tracker w)) =? 0)%nat = false).
  { destruct (selectedCourses (tracker w)); [contradiction|reflexivity]. }
  assert (Hlen2 : (length (List.filter valid_entry (selectedCourses (tracker w))) =? 0)%nat
                  = false).
  { destruct (List.filter valid_entry (selectedCourses (tracker w)));
      [contradiction|reflexivity]. }
  split; [|split].
  - unfold handleSubmit. rewrite added_read_tracker. cbv zeta. rewrite Hlen, Hlen2.
    rewrite (added_request env visible _ _ w
               [Get RLogs; Get RCourses; Get RAnalytics; Alert "LOG SAVED!"]);
      [reflexivity|].
    rewrite Hok.
    apply (emits_bind visible _ _ [] _); [apply emits_still; reflexivity|]. intros _.
    apply (emits_bind visible _ _ [] _); [apply emits_still; reflexivity|]. intros _.
    apply (emits_bind visible _ _ [] _); [apply emits_still; reflexivity|]. intros _.
    apply (emits_bind visible _ _ [Get RLogs; Get RCourses; Get RAnalytics]
             [Alert "LOG SAVED!"]); [|intros _; apply (emits_emit visible)].
    unfold onLogAdded.
    apply (emits_bind visible _ _ [Get RLogs] [Get RCourses; Get RAnalytics]);
      [apply (emits_fetchDailyLogs env visible deaf_visible)|]. intros _.
    apply (emits_bind visible _ _ [Get RCourses] [Get RAnalytics]);
      [apply (emits_fetchCourses env visible deaf_visible)|]. intros _.
    apply (emits_fetchAnalytics env visible deaf_visible).
  - unfold handleSubmit. rewrite exec_read_tracker. cbv zeta. rewrite Hlen, Hlen2.
    rewrite exec_request, Hok. do 3 rewrite exec_seq.
    assert (F : keeps tracker (bind (onLogAdded env) (fun _ => emit (Alert "LOG SAVED!"))))
      by (open_handlers; frame).
    rewrite F. reflexivity.
  - assert (F2 : keeps (fun w => plannedSessions (app w)) (handleSubmit env))
      by (open_handlers; frame).
    assert (F3 : keeps (fun w => showCourseDetail (app w)) (handleSubmit env))
      by (open_handlers; frame).
    assert (F5 : keeps calendar (handleSubmit env)) by (open_handlers; frame).
    repeat apply conj; [apply F2|apply F3|apply F5].
Qed.
(** X4. Planning a session: without a chosen course or without a date the
    handler only alerts SELECT COURSE AND DATE, sends nothing and changes
    nothing. Otherwise it posts the chosen course, the date, the estimated
    time and the notes; an accepted POST is followed by a read of the planned
    sessions and the alert SESSION PLANNED!, a refused one by the alert ERROR
    PLANNING SESSION and no read. *)
Theorem handleAddSession_spec (w : World) :
  let st := calendar w in
  ((selectedCourse st = EmptyString \/ planDate st = None \/
    planDate st = Some EmptyString) ->
   exec (handleAddSession env) w
   = mkWorld (app w) (tracker w) (calendar w)
       (trace w ++ [Alert "SELECT COURSE AND DATE"])) /\
  (forall d, selectedCourse st <> EmptyString -> planDate st = Some d ->
     d <> EmptyString ->
     let post := PostPlanned (mkPlannedPayload (selectedCourse st) d
                                (estimatedTime st) (planNotes st)) in
     List.filter visible (added (handleAddSession env) w)
     = if succeeds env (trace w ++ [post])
       then [post; Get RPlanned; Alert "SESSION PLANNED!"]
       else [post; Alert "ERROR PLANNING SESSION"]).
Proof.
  intros st. subst st. split.
  - intros H. unfold handleAddSession. rewrite exec_read_calendar.
    assert (E : negb (truthy_str (selectedCourse (calendar w)))
                || negb (truthy_date (planDate (calendar w))) = true).
    { destruct H as [H|[H|H]]; rewrite H; [reflexivity| |];
        destruct (selectedCourse (calendar w)); reflexivity. }
    rewrite E. reflexivity.
  - intros d Hc Hd Hne post. subst post.
    unfold handleAddSession. rewrite added_read_calendar, Hd.
    assert (E : negb (truthy_str (selectedCourse (calendar w)))
                || negb (truthy_date (Some d)) = false).
    { destruct (selectedCourse (calendar w)); [contradiction|].
      destruct d; [contradiction|]. reflexivity. }
    rewrite E. change (default EmptyString (Some d)) with d.
    destruct (succeeds env (trace w ++ [PostPlanned (mkPlannedPayload
                (selectedCourse (calendar w)) d (estimatedTime (calendar w))
                (planNotes (calendar w)))])) eqn:Hok.
    + rewrite (added_request env visible _ _ w [Get RPlanned; Alert "SESSION PLANNED!"]);
        [reflexivity|]. rewrite Hok.
      apply (emits_bind visible _ _ [] _); [apply emits_still; reflexivity|]. intros _.
      apply (emits_bind visible _ _ [] _); [apply emits_still; reflexivity|]. intros _.
      apply (emits_bind visible _ _ [] _); [apply emits_still; reflexivity|]. intros _.
      apply (emits_bind visible _ _ [] _); [apply emits_still; reflexivity|]. intros _.
      apply (emits_bind visible _ _ [Get RPlanned] [Alert "SESSION PLANNED!"]);
        [apply (emits_fetchPlannedSessions env visible deaf_visible)|].
      intros _. apply (emits_emit visible).
    + rewrite (added_request env visible _ _ w [Alert "ERROR PLANNING SESSION"]);
        [reflexivity|]. rewrite Hok.
      apply (emits_bind visible _ _ [] [Alert "ERROR PLANNING SESSION"]);
        [apply (emits_emit visible)|]. intros _. apply (emits_emit visible).
Qed.

(** X5. What planning a session does to the form: after an accepted POST
    the modal is closed and the course, the time and the notes are back at
    their defaults ("", 60, ""); after a refused POST, and after a refused
    validation, the form is exactly as the user left it. The chosen date is
    never changed, nor are the courses, the analytics, the daily logs, the
    detail modal and the daily-tracker form. *)
Theorem handleAddSession_form (w : World) :
  let st := calendar w in
  let after := exec (handleAddSession env) w in
  (forall d, selectedCourse st <> EmptyString -> planDate st = Some d ->
     d <> EmptyString ->
     calendar after
     = if succeeds env (trace w ++ [PostPlanned (mkPlannedPayload (selectedCourse st) d
                                       (estimatedTime st) (planNotes st))])
       then mkCalendar false (Some d) EmptyString 60 EmptyString
       else st) /\
  ((selectedCourse st = EmptyString \/ planDate st = None \/
    planDate st = Some EmptyString) -> calendar after = st) /\
  planDate (calendar after) = planDate st /\
  courses (app after) = courses (app w) /\
  analytics (app after) = analytics (app w) /\
  dailyLogs (app after) = dailyLogs (app w) /\
  showCourseDetail (app after) = showCourseDetail (app w) /\
  tracker after = tracker w.
Proof.
  intros st after. subst st after. split; [|split].
  - intros d Hc Hd Hne. unfold handleAddSession. rewrite exec_read_calendar, Hd.
    assert (E : negb (truthy_str (selectedCourse (calendar w)))
                || negb (truthy_date (Some d)) = false).
    { destruct (selectedCourse (calendar w)); [contradiction|].
      destruct d; [contradiction|]. reflexivity. }
    rewrite E. change (default EmptyString (Some d)) with d. rewrite exec_request.
    destruct (succeeds env _).
    + do 4 rewrite exec_seq.
      assert (F : keeps calendar (bind (fetchPlannedSessions env)
                                   (fun _ => emit (Alert "SESSION PLANNED!"))))
        by (open_handlers; frame).
      rewrite F. cbn. rewrite Hd. reflexivity.
    + rewrite exec_seq. reflexivity.
  - intros H. unfold handleAddSession. rewrite exec_read_calendar.
    assert (E : negb (truthy_str (selectedCourse (calendar w)))
                || negb (truthy_date (planDate (calendar w))) = true).
    { destruct H as [H|[H|H]]; rewrite H; [reflexivity| |];
        destruct (selectedCourse (calendar w)); reflexivity. }
    rewrite E. reflexivity.
  - assert (F0 : keeps (fun w => planDate (calendar w)) (handleAddSession env))
      by (open_handlers; frame).
    assert (F1 : keeps (fun w => courses (app w)) (handleAddSession env))
      by (open_handlers; frame).
    assert (F2 : keeps (fun w => analytics (app w)) (handleAddSession env))
      by (open_handlers; frame).
    assert (F3 : keeps (fun w => dailyLogs (app w)) (handleAddSession env))
      by (open_handlers; frame).
    assert (F4 : keeps (fun w => showCourseDetail (app w)) (handleAddSession env))
      by (open_handlers; frame).
    assert (F5 : keeps tracker (handleAddSession env)) by (open_handlers; frame).
    repeat apply conj; [apply F0|apply F1|apply F2|apply F3|apply F4|apply F5].
Qed.

(** X6. Deleting a planned session: the DELETE is sent only after the user
    has confirmed, for the session asked and once; declining sends nothing
    and changes nothing. The planned sessions are read again exactly when
    the DELETE was accepted. No alert is ever raised, and nothing but the
    list of planned sessions can change. *)
Theorem handleDeleteSession_spec (sessionId : string) (w : World) :
  let ask := Confirm "DELETE THIS PLANNED SESSION?" in
  let after := exec (handleDeleteSession env sessionId) w in
  List.filter visible (added (handleDeleteSession env sessionId) w)
  = (if confirms env (trace w ++ [ask])
     then if succeeds env ((trace w ++ [ask]) ++ [DeletePlanned sessionId])
          then [ask; DeletePlanned sessionId; Get RPlanned]
          else [ask; DeletePlanned sessionId]
     else [ask]) /\
  (confirms env (trace w ++ [ask]) = false ->
   after = mkWorld (app w) (tracker w) (calendar w) (trace w ++ [ask])) /\
  alerts (added (handleDeleteSession env sessionId) w) = [] /\
  courses (app after) = courses (app w) /\
  analytics (app after) = analytics (app w) /\
  dailyLogs (app after) = dailyLogs (app w) /\
  showCourseDetail (app after) = showCourseDetail (app w) /\
  tracker after = tracker w /\ calendar after = calendar w.
Proof.
  intros ask after. subst ask after. split; [|split; [|split]].
  - unfold handleDeleteSession, added. rewrite exec_seq, exec_history.
    cbn [exec emit snd trace].
    destruct (confirms env (trace w ++ [Confirm "DELETE THIS PLANNED SESSION?"])) eqn:Hc;
      cbn [negb].
    + rewrite exec_request. cbn [trace app tracker calendar].
      destruct (succeeds env _) eqn:Hok.
      * destruct (emits_fetchPlannedSessions env visible deaf_visible
                    (mkWorld (app w) (tracker w) (calendar w)
                       ((trace w ++ [Confirm "DELETE THIS PLANNED SESSION?"])
                        ++ [DeletePlanned sessionId]))) as (evs & Ht & Hf).
        rewrite Ht. cbn [trace]. rewrite <- !app_assoc, drop_app_length.
        cbn [List.app List.filter visible]. rewrite Hf. reflexivity.
      * cbn [exec emit snd trace]. rewrite <- !app_assoc, drop_app_length. reflexivity.
    + cbn [exec ret snd trace]. rewrite drop_app_length. reflexivity.
  - intros Hc. unfold handleDeleteSession. rewrite exec_seq, exec_history.
    cbn [exec emit snd trace]. rewrite Hc. reflexivity.
  - unfold handleDeleteSession, alerts. apply emits_added.
    apply (emits_bind is_alert _ _ [] []); [apply (emits_emit is_alert)|]. intros _.
    apply (emits_bind is_alert _ _ [] []); [apply emits_still; reflexivity|]. intros t.
    destruct (negb (confirms env t)); [apply emits_ret|].
    apply (emits_bind is_alert _ _ [] []); [apply emits_request|].
    intros [|]; [apply (emits_fetchPlannedSessions env is_alert deaf_alert)|].
    apply (emits_emit is_alert).
  - assert (F1 : keeps (fun w => courses (app w)) (handleDeleteSession env sessionId))
      by (open_handlers; frame).
    assert (F2 : keeps (fun w => analytics (app w)) (handleDeleteSession env sessionId))
      by (open_handlers; frame).
    assert (F3 : keeps (fun w => dailyLogs (app w)) (handleDeleteSession env sessionId))
      by (open_handlers; frame).
    assert (F4 : keeps (fun w => showCourseDetail (app w)) (handleDeleteSession env sessionId))
      by (open_handlers; frame).
    assert (F5 : keeps tracker (handleDeleteSession env sessionId))
      by (open_handlers; frame).
    assert (F6 : keeps calendar (handleDeleteSession env sessionId))
      by (open_handlers; frame).
    repeat apply conj; [apply F1|apply F2|apply F3|apply F4|apply F5|apply F6].
Qed.

(** X8. A course card shows at most one button: START on a course not yet
    started, DONE on a course in progress, none on a completed course. A
    click on a shown button always sends exactly one progress update, (5, In
    Progress) for START and (100, Completed) for DONE: no shown button is
    without effect, and a card cannot complete a course that was not
    started. *)
Theorem card_buttons_spec (course : Course) (w : World) :
  (length (Cards.card_buttons course) <= 1)%nat /\
  (status course = "Completed" -> Cards.card_buttons course = []) /\
  (In Cards.START (Cards.card_buttons course) <-> status course = "Not Started") /\
  (In Cards.DONE (Cards.card_buttons course) <-> status course = "In Progress") /\
  (forall b, In b (Cards.card_buttons course) ->
     mutations (added (Cards.click env course b) w)
     = [match b with
        | Cards.START => Patch (course_id course) 5 "In Progress"
        | Cards.DONE => Patch (course_id course) 100 "Completed"
        end]).
Proof.
  assert (Hemit : forall p st,
            emits is_mutation (updateCourseProgress env (course_id course) p st)
                  [Patch (course_id course) p st]).
  { intros p st. unfold updateCourseProgress.
    apply (emits_bind is_mutation _ _ [Patch (course_id course) p st] []);
      [apply (emits_request env is_mutation)|].
    intros [|]; [|apply (emits_emit is_mutation)].
    apply (emits_bind is_mutation _ _ [] []).
    - apply (emits_fetchCourses env is_mutation deaf_mutation).
    - intros _. apply (emits_fetchAnalytics env is_mutation deaf_mutation). }
  unfold Cards.card_buttons.
  destruct (String.eqb_spec (status course) "Not Started") as [E1|E1];
    destruct (String.eqb_spec (status course) "In Progress") as [E2|E2];
    try (rewrite E1 in E2; discriminate).
  - cbn [List.app length].
    split; [lia|]. split; [intros H; rewrite H in E1; discriminate|].
    split; [split; [intros _; exact E1|intros _; left; reflexivity]|].
    split; [split; [intros [H|[]]; discriminate|intros H; contradiction]|].
    intros b [<-|[]]. unfold Cards.click, handleStartCourse, mutations. rewrite E1.
    change (String.eqb "Not Started" "Not Started") with true. cbv iota.
    apply emits_added. apply Hemit.
  - cbn [List.app length].
    split; [lia|]. split; [intros H; rewrite H in E2; discriminate|].
    split; [split; [intros [H|[]]; discriminate|intros H; contradiction]|].
    split; [split; [intros _; exact E2|intros _; left; reflexivity]|].
    intros b [<-|[]]. unfold Cards.click, handleCompleteCourse, mutations.
    apply emits_added. apply Hemit.
  - cbn [List.app length].
    split; [lia|]. split; [reflexivity|].
    split; [split; [intros []|intros H; contradiction]|].
    split; [split; [intros []|intros H; contradiction]|].
    intros b [].
Qed.
End HandlerFacts.

Lemma handleSubmit_success_witness :
  let env := Effects.serving_env [] [] [] in
  List.filter View.valid_entry (View.selectedCourses (View.tracker View.sample_world)) <> [] /\
  View.tracker (View.exec (View.handleSubmit env) View.sample_world)
  = View.mkTracker "2025-01-15" [] EmptyString None.
Proof.
  intros env. split; [discriminate|].
  exact (proj1 (proj2 (handleSubmit_success env View.sample_world
                         ltac:(discriminate) eq_refl))).
Defined.

(** ** The entry rows of the daily tracker *)

Section TrackerFormFacts.
Import View TrackerForm.

Lemma filteri_skip {A} (l : list A) (index k : nat) :
  (index < k)%nat -> filteri (fun _ i => negb (i =? index)%nat) k l = l.
Proof.
  revert k. induction l as [|x l IH]; intros k Hk; [reflexivity|]. simpl.
  destruct (Nat.eqb_spec k index) as [E|_]; [lia|]. simpl. rewrite IH by lia. reflexivity.
Qed.

Lemma filteri_remove {A} (l : list A) (index k : nat) :
  (k <= index)%nat ->
  filteri (fun _ i => negb (i =? index)%nat) k l
  = take (index - k) l ++ drop (S (index - k)) l.
Proof.
  revert k. induction l as [|x l IH]; intros k Hk.
  - simpl. rewrite take_nil. reflexivity.
  - simpl. destruct (Nat.eqb_spec k index) as [E|E].
    + subst k. simpl. rewrite Nat.sub_diag. simpl. rewrite drop_0.
      apply filteri_skip. lia.
    + simpl. rewrite (IH (S k)) by lia.
      replace (index - k)%nat with (S (index - S k)) by lia. reflexivity.
Qed.


(** X9. Removing row [index] leaves the rows before it and the rows after
    it, in their order: one row less when [index] is a row of the form, and
    the same form when it is not. *)
Theorem without_row_spec (index : nat) (l : list LogEntry) :
  without_row index l = take index l ++ drop (S index) l /\
  ((index < length l)%nat -> S (length (without_row index l)) = length l) /\
  ((length l <= index)%nat -> without_row index l = l) /\
  (forall j, (j < index)%nat -> without_row index l !! j = l !! j) /\
  (forall j, (index <= j)%nat -> without_row index l !! j = l !! S j).
Proof.
  assert (H : without_row index l = take index l ++ drop (S index) l).
  { unfold without_row. rewrite filteri_remove by lia. rewrite Nat.sub_0_r. reflexivity. }
  split; [exact H|]. rewrite H. split; [|split; [|split]].
  - intros Hi. rewrite length_app, length_take, length_drop. lia.
  - intros Hi. rewrite take_ge by lia. rewrite drop_ge by lia. apply app_nil_r.
  - intros j Hj. destruct (decide (index <= length l)%nat) as [Hl|Hl].
    + rewrite lookup_app_l by (rewrite length_take; lia). apply lookup_take_lt. exact Hj.
    + rewrite take_ge by lia. rewrite drop_ge by lia. rewrite app_nil_r. reflexivity.
  - intros j Hj. destruct (decide (index <= length l)%nat) as [Hl|Hl].
    + rewrite lookup_app_r by (rewrite length_take; lia).
      rewrite length_take, lookup_drop. f_equal. lia.
    + rewrite take_ge by lia. rewrite drop_ge by lia. rewrite app_nil_r.
      rewrite !lookup_ge_None_2 by lia. reflexivity.
Qed.

(** X10. Adding a row and then removing the last row gives back the form
    as it was, rows, date, notes and mood, and nothing is sent. *)
Theorem add_then_remove_row (w : World) :
  exec (bind handleAddCourse
          (fun _ => handleRemoveCourse (length (selectedCourses (tracker w))))) w = w.
Proof.
  unfold exec, bind, handleAddCourse, handleRemoveCourse, read_tracker,
    setSelectedCourses, modify_tracker. cbn.
  unfold without_row, with_new_row. rewrite filteri_remove by lia.
  rewrite Nat.sub_0_r, take_app_length.
  rewrite drop_app_ge by lia.
  replace (S (length (selectedCourses (tracker w))) - length (selectedCourses (tracker w)))%nat
    with 1%nat by lia.
  cbn. rewrite app_nil_r. destruct w as [a [d l n m] c t]. reflexivity.
Qed.





(** X12. Editing a row that is not there changes nothing (the handler
    throws before it stores anything). Editing row [index] keeps the number
    of rows, every other row, the date, the notes and the mood, and sends
    nothing; a time that does not parse, or 0, is stored as 0, which keeps
    the row out of the submission. *)
Theorem handleUpdateCourse_spec (offered : list Course) (index : nat) (f : Field)
    (w : World) :
  let l := selectedCourses (tracker w) in
  let after := exec (handleUpdateCourse offered index f) w in
  let l' := selectedCourses (tracker after) in
  ((length l <= index)%nat -> after = w) /\
  length l' = length l /\
  (forall j, j <> index -> l' !! j = l !! j) /\
  selectedDate (tracker after) = selectedDate (tracker w) /\
  notes (tracker after) = notes (tracker w) /\
  mood (tracker after) = mood (tracker w) /\
  app after = app w /\ calendar after = calendar w /\ trace after = trace w /\
  (forall parsed e, f = time_spent_is parsed -> l' !! index = Some e ->
     time_spent e = js_or parsed 0 /\
     (parsed = None \/ parsed = Some 0%Z -> valid_entry e = false)).
Proof.
  intros l after l'. subst l after l'.
  unfold handleUpdateCourse. rewrite exec_read_tracker. unfold with_field.
  destruct (selectedCourses (tracker w) !! index) as [e0|] eqn:E0.
  - assert (Hlt : (index < length (selectedCourses (tracker w)))%nat)
      by (apply lookup_lt_Some in E0; exact E0).
    cbn. rewrite length_insert.
    split; [lia|]. split; [reflexivity|].
    split; [intros j Hj; apply list_lookup_insert_ne; congruence|].
    repeat (split; [reflexivity|]).
    intros parsed e -> He. rewrite list_lookup_insert_eq in He by exact Hlt.
    injection He as <-. cbn. split; [reflexivity|].
    intros [->| ->]; cbn; apply andb_false_r.
  - cbn. split; [intros _; destruct w; reflexivity|].
    repeat (split; [reflexivity|]).
    intros parsed e _ He. rewrite E0 in He. discriminate.
Qed.

(** X13. An empty row never changes which entries pass the check: they
    are the same with and without it. For a form that already has a row,
    submitting right after ADD COURSE therefore starts with the same alert or
    the same POST as submitting at once. For a form without rows the two
    differ: submitting at once alerts ADD AT LEAST ONE COURSE, submitting
    right after ADD COURSE alerts SELECT COURSES AND ADD TIME, as for every
    form none of whose rows passes the check. *)
Theorem blank_rows_ignored (env : Env) (w : World) :
  List.filter valid_entry (with_new_row (selectedCourses (tracker w)))
  = List.filter valid_entry (selectedCourses (tracker w)) /\
  (selectedCourses (tracker w) <> [] ->
   first_added (bind handleAddCourse (fun _ => handleSubmit env)) w
   = first_added (handleSubmit env) w) /\
  (selectedCourses (tracker w) = [] ->
   first_added (handleSubmit env) w = Some (Alert "ADD AT LEAST ONE COURSE") /\
   first_added (bind handleAddCourse (fun _ => handleSubmit env)) w
   = Some (Alert "SELECT COURSES AND ADD TIME")) /\
  (List.filter valid_entry (selectedCourses (tracker w)) = [] ->
   first_added (bind handleAddCourse (fun _ => handleSubmit env)) w
   = Some (Alert "SELECT COURSES AND ADD TIME")).
Proof.
  assert (Hf : List.filter valid_entry (with_new_row (selectedCourses (tracker w)))
               = List.filter valid_entry (selectedCourses (tracker w))).
  { unfold with_new_row. rewrite List.filter_app. cbn. apply app_nil_r. }
  assert (Hfirst : forall w0,
            first_added (handleSubmit env) w0
            = Some (if (length (selectedCourses (tracker w0)) =? 0)%nat
                    then Alert "ADD AT LEAST ONE COURSE"
                    else if (length (List.filter valid_entry
                                       (selectedCourses (tracker w0))) =? 0)%nat
                         then Alert "SELECT COURSES AND ADD TIME"
                         else PostLog (mkLogPayload (selectedDate (tracker w0))
                                         (List.filter valid_entry
                                            (selectedCourses (tracker w0)))
                                         (notes (tracker w0)) (mood (tracker w0))))).
  { intros w0. unfold first_added, handleSubmit. rewrite exec_read_tracker. cbv zeta.
    destruct (length (selectedCourses (tracker w0)) =? 0)%nat.
    - cbn. rewrite lookup_app_r by lia. rewrite Nat.sub_diag. reflexivity.
    - destruct (length (List.filter valid_entry (selectedCourses (tracker w0))) =? 0)%nat.
      + cbn. rewrite lookup_app_r by lia. rewrite Nat.sub_diag. reflexivity.
      + destruct (request_then_silent env
                    (PostLog (mkLogPayload (selectedDate (tracker w0))
                       (List.filter valid_entry (selectedCourses (tracker w0)))
                       (notes (tracker w0)) (mood (tracker w0))))
                    (fun ok => if ok
                       then bind (setSelectedCourses [])
                              (fun _ => bind (setNotes EmptyString)
                                 (fun _ => bind (setMood None)
                                    (fun _ => bind (onLogAdded env)
                                       (fun _ => emit (Alert "LOG SAVED!")))))
                       else bind (emit (ConsoleError "Error saving log:"))
                              (fun _ => emit (Alert "ERROR SAVING LOG"))) w0)
          as (rest & Ht & _).
        * intros ok. assert (Hlog := silent_onLogAdded env). destruct ok.
          -- apply silent_bind; [apply silent_modify_tracker|intro].
             apply silent_bind; [apply silent_modify_tracker|intro].
             apply silent_bind; [apply silent_modify_tracker|intro].
             apply silent_bind; [exact Hlog|intro].
             apply silent_emit. reflexivity.
          -- apply silent_bind; [|intro]; apply silent_emit; reflexivity.
        * rewrite Ht. rewrite lookup_app_r by lia. rewrite Nat.sub_diag. reflexivity. }
  assert (Hadd : forall A (k : M A),
            first_added (bind handleAddCourse (fun _ => k)) w
            = first_added k (exec handleAddCourse w)).
  { intros A k. unfold first_added. rewrite exec_seq. reflexivity. }
  split; [exact Hf|]. split.
  - intros Hne. rewrite Hadd, !Hfirst. cbn [exec handleAddCourse]. 
    unfold handleAddCourse. rewrite exec_read_tracker. cbn.
    rewrite Hf. unfold with_new_row. rewrite length_app. cbn [length].
    destruct (selectedCourses (tracker w)) as [|e l]; [contradiction|].
    replace (length (e :: l) + 1 =? 0)%nat with false by (symmetry; apply Nat.eqb_neq; lia).
    reflexivity.
  - assert (Hblank : List.filter valid_entry (selectedCourses (tracker w)) = [] ->
              first_added (bind handleAddCourse (fun _ => handleSubmit env)) w
              = Some (Alert "SELECT COURSES AND ADD TIME")).
    { intros Hnil. rewrite Hadd, Hfirst.
      unfold handleAddCourse. rewrite exec_read_tracker. cbn.
      rewrite Hf, Hnil. unfold with_new_row. rewrite length_app. cbn [length].
      replace (length (selectedCourses (tracker w)) + 1 =? 0)%nat with false
        by (symmetry; apply Nat.eqb_neq; lia).
      reflexivity. }
    split; [|exact Hblank].
    intros He. split; [rewrite Hfirst, He; reflexivity|].
    apply Hblank. rewrite He. reflexivity.
Qed.
End TrackerFormFacts.

(** ** Lists shown on the dashboard, the calendar and the completed tab *)

Section ListFacts.
Import View Lists JSString.

Lemma filter_complement_perm {A} (f : A -> bool) (l : list A) :
  List.filter f l ++ List.filter (fun x => negb (f x)) l ≡ₚ l.
Proof.
  induction l as [|x l IH]; [reflexivity|]. simpl. destruct (f x); simpl.
  - rewrite IH. reflexivity.
  - rewrite <- Permutation_middle, IH. reflexivity.
Qed.

Lemma filter_sublist {A} (f : A -> bool) (l : list A) : sublist (List.filter f l) l.
Proof.
  induction l as [|x l IH]; simpl; [constructor|].
  destruct (f x); [apply sublist_skip|apply sublist_cons]; exact IH.
Qed.

(** X14. The completed tab and the daily tracker split the catalogue: every
    course is handed to exactly one of them, each list keeps the catalogue
    order, and the two lists together are a rearrangement of the catalogue,
    so their lengths add up to the number of courses. *)
Theorem tabs_split_courses (cs : list Course) :
  completed_courses_of cs ++ tracker_courses cs ≡ₚ cs /\
  length (completed_courses_of cs) + length (tracker_courses cs) = length cs /\
  sublist (completed_courses_of cs) cs /\ sublist (tracker_courses cs) cs /\
  (forall c, In c cs ->
     (In c (completed_courses_of cs) <-> status c = "Completed") /\
     (In c (tracker_courses cs) <-> status c <> "Completed")).
Proof.
  assert (Hp : completed_courses_of cs ++ tracker_courses cs ≡ₚ cs).
  { unfold completed_courses_of, tracker_courses, str_neq.
    apply (filter_complement_perm (fun c => String.eqb (status c) "Completed")). }
  pose proof (fun f => filter_sublist (A:=Course) f cs) as Hsub.
  split; [exact Hp|]. split; [rewrite <- length_app; apply Permutation_length, Hp|].
  split; [apply Hsub|]. split; [apply Hsub|].
  intros c Hc. unfold completed_courses_of, tracker_courses. rewrite !filter_In.
  rewrite String.eqb_eq, str_neq_true. tauto.
Qed.
Lemma phase_in_dashboard_count (q : Z) :
  list_sum (map (fun p => if (q =? p)%Z then 1 else 0)%nat dashboard_phases)
  = if ((1 <=? q) && (q <=? 8))%Z then 1%nat else 0%nat.
Proof.
  unfold dashboard_phases, list_sum. cbn [map fold_right].
  destruct (Z.leb_spec 1 q), (Z.leb_spec q 8); cbn [andb];
    repeat match goal with
           | |- context [(q =? ?p)%Z] => destruct (Z.eqb_spec q p); [lia || idtac|]
           end; try reflexivity; lia.
Qed.

Lemma tiles_total (courses : list Course) :
  list_sum (map (fun p => snd (phase_tile courses p)) dashboard_phases)
  = length (List.filter (fun c => ((1 <=? phase c) && (phase c <=? 8))%Z) courses).
Proof.
  induction courses as [|c l IH].
  - reflexivity.
  - cbn [List.filter].
    assert (E : list_sum (map (fun p => snd (phase_tile (c :: l) p)) dashboard_phases)
                = (list_sum (map (fun p => if (phase c =? p)%Z then 1 else 0)%nat
                              dashboard_phases)
                   + list_sum (map (fun p => snd (phase_tile l p)) dashboard_phases))%nat).
    { unfold dashboard_phases, phase_tile, list_sum.
      cbn [map fold_right snd List.filter].
      repeat match goal with
             | |- context [(phase c =? ?p)%Z] => destruct (phase c =? p)%Z
             end; cbn [length]; lia. }
    rewrite E, IH, phase_in_dashboard_count.
    destruct ((1 <=? phase c) && (phase c <=? 8))%Z; reflexivity.
Qed.

(** X15. The PHASE PROGRESS tiles: the tile of a phase counts the courses
    of the group the courses tab shows for that phase (0 when there is no such
    group), and never more completed courses than courses. The eight tiles
    together count each course with a phase from 1 to 8 once, and no other
    course: a course outside that range appears on no tile. *)
Theorem phase_tiles_spec (courses : list Course) :
  (forall p, (fst (phase_tile courses p) <= snd (phase_tile courses p))%nat) /\
  (forall p,
     match Phases.getCoursesByPhase courses !! p with
     | Some g =>
         snd (phase_tile courses p) = length (Phases.pg_courses g) /\
         fst (phase_tile courses p)
         = length (completed_courses_of (Phases.pg_courses g))
     | None => phase_tile courses p = (0, 0)%nat
     end) /\
  list_sum (map (fun p => snd (phase_tile courses p)) dashboard_phases)
  = length (List.filter (fun c => ((1 <=? phase c) && (phase c <=? 8))%Z) courses) /\
  ((forall c, In c courses -> (1 <= phase c <= 8)%Z) ->
   list_sum (map (fun p => snd (phase_tile courses p)) dashboard_phases)
   = length courses).
Proof.
  split; [|split; [|split]].
  - intros p. unfold phase_tile. cbn [fst snd].
    apply sublist_length, filter_sublist.
  - intros p. rewrite getCoursesByPhase_lookup. unfold Phases.group_of, Phases.of_phase.
    unfold phase_tile.
    destruct (List.filter (fun c => (phase c =? p)%Z) courses) as [|c0 rest] eqn:E.
    + reflexivity.
    + cbn [Phases.pg_courses fst snd]. split; reflexivity.
  - apply tiles_total.
  - intros H. rewrite tiles_total. f_equal.
    induction courses as [|c l IH]; [reflexivity|]. cbn [List.filter].
    pose proof (H c (or_introl eq_refl)) as Hc.
    destruct (Z.leb_spec 1 (phase c)), (Z.leb_spec (phase c) 8); try lia.
    cbn [andb]. f_equal. apply IH. intros c' Hc'. apply H. right. exact Hc'.
Qed.

Lemma In_firstn_In {A} (n : nat) (x : A) (l : list A) :
  In x (firstn n l) -> In x l.
Proof.
  revert l. induction n as [|n IH]; intros [|a l]; simpl; try tauto.
  intros [H|H]; [left; exact H|right; apply IH; exact H].
Qed.

(** X16. The list of upcoming sessions holds the planned sessions whose
    date string is not below today's, in the order of the planned sessions,
    cut after the tenth: it is the prefix of these sessions that has ten of
    them when there are more than ten, and all of them otherwise. NO PLANNED
    SESSIONS is shown exactly when the list is empty, that is when every
    planned session is dated below today. *)
Theorem upcoming_spec (today : string) (ps : list PlannedSession) :
  length (upcoming today ps)
  = Nat.min 10 (length (List.filter (fun s => str_ge (planned_date s) today) ps)) /\
  sublist (upcoming today ps) ps /\
  (forall s, In s (upcoming today ps) ->
     In s ps /\ str_ge (planned_date s) today = true) /\
  (exists later,
     List.filter (fun s => str_ge (planned_date s) today) ps
     = upcoming today ps ++ later /\
     (length (List.filter (fun s => str_ge (planned_date s) today) ps) <= 10 ->
      later = [])%nat) /\
  (no_upcoming today ps = true <-> upcoming today ps = []) /\
  (no_upcoming today ps = true <->
   forall s, In s ps -> str_ge (planned_date s) today = false).
Proof.
  unfold upcoming, no_upcoming.
  set (shown := List.filter (fun s => str_ge (planned_date s) today) ps).
  split; [apply length_firstn|].
  split.
  { transitivity shown; [apply sublist_take|apply filter_sublist]. }
  split.
  { intros s Hs. apply In_firstn_In, filter_In in Hs. exact Hs. }
  split.
  { exists (skipn 10 shown). split; [symmetry; apply firstn_skipn|].
    intros H. apply skipn_all2. exact H. }
  split.
  - rewrite Nat.eqb_eq. destruct shown; simpl; split; congruence.
  - rewrite Nat.eqb_eq. unfold shown. rewrite length_zero_iff_nil, filter_nil_iff.
    reflexivity.
Qed.
End ListFacts.

(** ** Dates as strings and as days *)

Section DateOrderFacts.
Import JSDate JSString Calendar Lists.
Local Open Scope Z_scope.

Lemma digit_cases a :
  0 <= a <= 9 ->
  a = 0 \/ a = 1 \/ a = 2 \/ a = 3 \/ a = 4 \/ a = 5 \/ a = 6 \/ a = 7 \/ a = 8 \/ a = 9.
Proof. lia. Qed.

(** Strings that start with a digit compare by that digit first. *)
Lemma compare_digit a b s t :
  0 <= a <= 9 -> 0 <= b <= 9 ->
  String.compare (String (digit a) s) (String (digit b) t)
  = match a ?= b with Eq => String.compare s t | r => r end.
Proof.
  intros Ha Hb.
  destruct (digit_cases a Ha) as [->|[->|[->|[->|[->|[->|[->|[->|[->| ->]]]]]]]]];
    destruct (digit_cases b Hb) as [->|[->|[->|[->|[->|[->|[->|[->|[->| ->]]]]]]]]];
    reflexivity.
Qed.

Lemma compare_dash s t : String.compare (String "-" s) (String "-" t) = String.compare s t.
Proof. reflexivity. Qed.

Lemma iso_date_order y m d y' m' d' :
  0 <= y <= 9999 -> 0 <= m <= 99 -> 0 <= d <= 99 ->
  0 <= y' <= 9999 -> 0 <= m' <= 99 -> 0 <= d' <= 99 ->
  str_ge (iso_date y m d) (iso_date y' m' d') = true <-> civil_le y' m' d' y m d.
Proof.
  intros Hy Hm Hd Hy' Hm' Hd'.
  unfold str_ge, civil_le.
  cbv beta iota zeta delta [String.append iso_date four_digits two_digits].
  assert (D : forall n, 0 <= n mod 10 <= 9)
    by (intros n; pose proof (Z.mod_pos_bound n 10); lia).
  repeat first [rewrite compare_digit by apply D | rewrite compare_dash].
  change (String.compare EmptyString EmptyString) with (@Eq).
  pose proof (D (y / 1000)) as B1. pose proof (D (y / 100)) as B2.
  pose proof (D (y / 10)) as B3. pose proof (D y) as B4.
  pose proof (D (y' / 1000)) as B5. pose proof (D (y' / 100)) as B6.
  pose proof (D (y' / 10)) as B7. pose proof (D y') as B8.
  pose proof (D (m / 10)) as B9. pose proof (D m) as B10.
  pose proof (D (m' / 10)) as B11. pose proof (D m') as B12.
  pose proof (D (d / 10)) as B13. pose proof (D d) as B14.
  pose proof (D (d' / 10)) as B15. pose proof (D d') as B16.
  set (y3 := y / 1000 mod 10) in *. set (y2 := y / 100 mod 10) in *. set (y1 := y / 10 mod 10) in *.
  set (y0 := y mod 10) in *.
  set (z3 := y' / 1000 mod 10) in *. set (z2 := y' / 100 mod 10) in *. set (z1 := y' / 10 mod 10) in *.
  set (z0 := y' mod 10) in *.
  set (m1 := m / 10 mod 10) in *. set (m0 := m mod 10) in *.
  set (n1 := m' / 10 mod 10) in *. set (n0 := m' mod 10) in *.
  set (d1 := d / 10 mod 10) in *. set (d0 := d mod 10) in *.
  set (e1 := d' / 10 mod 10) in *. set (e0 := d' mod 10) in *.
  assert (Ey : y = 1000 * y3 + 100 * y2 + 10 * y1 + y0)
    by (subst y3 y2 y1 y0; clear -Hy; Z.div_mod_to_equations; lia).
  assert (Ez : y' = 1000 * z3 + 100 * z2 + 10 * z1 + z0)
    by (subst z3 z2 z1 z0; clear -Hy'; Z.div_mod_to_equations; lia).
  assert (Em : m = 10 * m1 + m0) by (subst m1 m0; clear -Hm; Z.div_mod_to_equations; lia).
  assert (En : m' = 10 * n1 + n0) by (subst n1 n0; clear -Hm'; Z.div_mod_to_equations; lia).
  assert (Ed : d = 10 * d1 + d0) by (subst d1 d0; clear -Hd; Z.div_mod_to_equations; lia).
  assert (Ee : d' = 10 * e1 + e0) by (subst e1 e0; clear -Hd'; Z.div_mod_to_equations; lia).
  clearbody y3 y2 y1 y0 z3 z2 z1 z0 m1 m0 n1 n0 d1 d0 e1 e0. clear D.
  subst y y' m m' d d'.
  repeat match goal with
         | |- context [?a ?= ?b] => destruct (Z.compare_spec a b); cbv beta iota
         end;
    first [split; [intros _; lia | reflexivity] | split; [discriminate | intros; lia]].
Qed.

Lemma cell_dateStr_eq currentDate i :
  PlanForm.cell_dateStr currentDate i
  = (ToString (getFullYear currentDate) ++ "-" ++
     padStart 2 "0" (ToString (getMonth currentDate + 1)) ++ "-" ++
     padStart 2 "0" (ToString (Z.of_nat i + 1)))%string.
Proof. reflexivity. Qed.

Lemma cell_dateStr_iso currentDate i :
  1000 <= getFullYear currentDate <= 9999 -> (i < 99)%nat ->
  PlanForm.cell_dateStr currentDate i
  = iso_date (getFullYear currentDate) (getMonth currentDate + 1) (Z.of_nat i + 1).
Proof.
  intros Hy Hi. rewrite cell_dateStr_eq. unfold iso_date.
  pose proof (MonthFromTime_range currentDate) as Hm. fold (getMonth currentDate) in Hm.
  rewrite (ToString_four_digits _ Hy), !padStart_two_digits by lia. reflexivity.
Qed.

(** X17. Whether a session counts as upcoming is decided by comparing
    date strings, and for the date string of a day cell of a four-digit year
    against today's zero-padded date this is the order of the calendar: the
    cell's string is not below today's exactly when its day is today or
    later. So a session planned for that cell, once among the planned
    sessions, passes the filter and keeps NO PLANNED SESSIONS away when its day
    is today or later, and is never listed when its day is past. [Y], [M] and
    [D] are the year, month (1 to 12) and day of
    [new Date().toISOString().split('T')[0]]. *)
Theorem upcoming_is_chronological (currentDate : Z) (i : nat) (Y M D : Z)
    (ps : list PlannedSession) (s : PlannedSession) :
  let y := getFullYear currentDate in
  let m := getMonth currentDate in
  let today := iso_date Y M D in
  1000 <= y <= 9999 -> (i < 31)%nat ->
  0 <= Y <= 9999 -> 1 <= M <= 12 -> 1 <= D <= 31 ->
  (str_ge (PlanForm.cell_dateStr currentDate i) today = true
   <-> civil_le Y M D y (m + 1) (Z.of_nat i + 1)) /\
  (In s ps -> planned_date s = PlanForm.cell_dateStr currentDate i ->
   civil_le Y M D y (m + 1) (Z.of_nat i + 1) ->
   In s (List.filter (fun s => str_ge (planned_date s) today) ps) /\
   no_upcoming today ps = false) /\
  (planned_date s = PlanForm.cell_dateStr currentDate i ->
   ~ civil_le Y M D y (m + 1) (Z.of_nat i + 1) ->
   ~ In s (upcoming today ps)).
Proof.
  intros y m today Hy Hi HY HM HD.
  pose proof (MonthFromTime_range currentDate) as Hm. fold (getMonth currentDate) in Hm.
  fold m in Hm.
  assert (E : str_ge (PlanForm.cell_dateStr currentDate i) today = true
              <-> civil_le Y M D y (m + 1) (Z.of_nat i + 1)).
  { rewrite cell_dateStr_iso by (fold y; lia). apply iso_date_order; fold y; lia. }
  split; [exact E|]. split.
  - intros Hin Hs Hle.
    assert (Hf : In s (List.filter (fun s => str_ge (planned_date s) today) ps)).
    { apply filter_In. split; [exact Hin|]. rewrite Hs. apply E, Hle. }
    split; [exact Hf|]. unfold no_upcoming. apply Nat.eqb_neq.
    destruct (List.filter _ ps); [destruct Hf|discriminate].
  - intros Hs Hn Hin. unfold upcoming in Hin.
    apply In_firstn_In, filter_In in Hin as [_ Hge]. rewrite Hs in Hge.
    apply Hn, E, Hge.
Qed.

(** 20 January 2025 seen from 15 January 2025. *)
Lemma upcoming_is_chronological_witness :
  (str_ge (PlanForm.cell_dateStr 20103 19) (iso_date 2025 1 15) = true
   <-> civil_le 2025 1 15 2025 1 20).
Proof.
  refine (proj1 (upcoming_is_chronological 20103 19 2025 1 15 [] 
            (mkSession "s1" "c1" "2025-01-20" 60 EmptyString) _ _ _ _ _));
    vm_compute; try (split; discriminate); lia.
Defined.

End DateOrderFacts.

(** ** Calendar navigation *)

Section NavigationFacts.
Import JSDate JSString Calendar Navigation.
Local Open Scope Z_scope.

Lemma full_year_Date_new year month date :
  Date_new year month date = TimeClip (MakeDay (full_year year) month date).
Proof. reflexivity. Qed.

Lemma MonthStart_bounds y m : 0 <= m <= 11 -> 0 <= MonthStart (LeapDay y) m <= 335.
Proof.
  intros Hm. pose proof (LeapDay_range y) as HL.
  assert (C : m = 0 \/ m = 1 \/ m = 2 \/ m = 3 \/ m = 4 \/ m = 5 \/ m = 6 \/ m = 7 \/
              m = 8 \/ m = 9 \/ m = 10 \/ m = 11) by lia.
  destruct C as [->|[->|[->|[->|[->|[->|[->|[->|[->|[->|[->| ->]]]]]]]]]]];
    cbn [MonthStart]; lia.
Qed.

(** The first day of a month, the month carrying into the year. *)
Lemma first_of_month yr month :
  -270001 <= yr + month / 12 <= 270001 ->
  let d := MakeDay yr month 1 in
  TimeClip d = Some d /\
  getFullYear d = yr + month / 12 /\ getMonth d = month mod 12 /\ getDate d = 1.
Proof.
  intros Hr d.
  assert (Hm : 0 <= month mod 12 <= 11) by (pose proof (Z.mod_pos_bound month 12); lia).
  pose proof (days_in_month_pos (yr + month / 12) (month mod 12)) as Hd.
  assert (Hone : 1 <= 1 <= days_in_month (yr + month / 12) (month mod 12)) by lia.
  pose proof (civil_roundtrip _ _ 1 Hm Hone) as Hc. cbv zeta in Hc.
  split; [|exact Hc].
  unfold TimeClip, d, MakeDay.
  pose proof (MonthStart_bounds (yr + month / 12) (month mod 12) Hm) as Hs.
  assert (Hb : -99500000 <= DayFromYear (yr + month / 12) <= 99000000).
  { unfold DayFromYear. Z.div_mod_to_equations. lia. }
  destruct (Z.leb_spec (Z.abs (DayFromYear (yr + month / 12)
                               + MonthStart (LeapDay (yr + month / 12)) (month mod 12)
                               + 1 - 1)) 100000000); [reflexivity|lia].
Qed.

Lemma full_year_range y : -270000 <= y <= 270000 -> -270000 <= full_year y <= 270000.
Proof.
  unfold full_year. destruct (Z.leb_spec 0 y), (Z.leb_spec y 99); cbn [andb]; lia.
Qed.

Lemma full_year_id y : ~ 0 <= y <= 99 -> full_year y = y.
Proof.
  unfold full_year. destruct (Z.leb_spec 0 y), (Z.leb_spec y 99); cbn [andb]; lia.
Qed.

(** X18. The PREV and NEXT buttons, for a month of a year within 270000
    years of the epoch: each leads to the first day of the adjacent month,
    December carrying into the next year and January into the previous one.
    The year is first read as [new Date] reads it, so from a year from 0 to 99
    both buttons land in the years 1900 to 1999 (or next to them). Away from
    those years PREV after NEXT, and NEXT after PREV, come back to the first
    day of the month shown. *)
Theorem navigation_spec (d : Z) :
  let y := getFullYear d in
  let m := getMonth d in
  -270000 <= y <= 270000 ->
  (exists d', nextMonth (Some d) = Some d' /\
     getFullYear d' = (if m =? 11 then full_year y + 1 else full_year y) /\
     getMonth d' = (if m =? 11 then 0 else m + 1) /\ getDate d' = 1) /\
  (exists d', prevMonth (Some d) = Some d' /\
     getFullYear d' = (if m =? 0 then full_year y - 1 else full_year y) /\
     getMonth d' = (if m =? 0 then 11 else m - 1) /\ getDate d' = 1) /\
  (~ -1 <= y <= 100 ->
   exists first,
     prevMonth (nextMonth (Some d)) = Some first /\
     nextMonth (prevMonth (Some d)) = Some first /\
     getFullYear first = y /\ getMonth first = m /\ getDate first = 1).
Proof.
  intros y m Hr.
  assert (Hm : 0 <= m <= 11) by apply MonthFromTime_range.
  pose proof (full_year_range y Hr) as Hf.
  assert (Hnext : -270001 <= full_year y + (m + 1) / 12 <= 270001)
    by (Z.div_mod_to_equations; lia).
  assert (Hprev : -270001 <= full_year y + (m - 1) / 12 <= 270001)
    by (Z.div_mod_to_equations; lia).
  destruct (first_of_month _ _ Hnext) as (Nc & Ny & Nm & Nd).
  destruct (first_of_month _ _ Hprev) as (Pc & Py & Pm & Pd).
  assert (En : nextMonth (Some d) = Some (MakeDay (full_year y) (m + 1) 1))
    by (unfold nextMonth; fold y m; rewrite full_year_Date_new; exact Nc).
  assert (Ep : prevMonth (Some d) = Some (MakeDay (full_year y) (m - 1) 1))
    by (unfold prevMonth; fold y m; rewrite full_year_Date_new; exact Pc).
  split; [|split].
  - eexists. split; [exact En|]. rewrite Ny, Nm. split; [|split; [|exact Nd]].
    + destruct (Z.eqb_spec m 11) as [->|]; [reflexivity|].
      rewrite (Z.div_small (m + 1) 12) by lia. lia.
    + destruct (Z.eqb_spec m 11) as [->|]; [reflexivity|].
      apply Z.mod_small. lia.
  - eexists. split; [exact Ep|]. rewrite Py, Pm. split; [|split; [|exact Pd]].
    + destruct (Z.eqb_spec m 0) as [->|]; [reflexivity|].
      rewrite (Z.div_small (m - 1) 12) by lia. lia.
    + destruct (Z.eqb_spec m 0) as [->|]; [reflexivity|].
      apply Z.mod_small. lia.
  - intros Hq. rewrite full_year_id in * by lia.
    assert (Hhere : -270001 <= y + m / 12 <= 270001) by (Z.div_mod_to_equations; lia).
    destruct (first_of_month y m Hhere) as (Hc & Hy & Hmm & Hd).
    rewrite (Z.div_small m 12), Z.add_0_r in Hy by lia.
    rewrite (Z.mod_small m 12) in Hmm by lia.
    exists (MakeDay y m 1). rewrite En, Ep. unfold prevMonth, nextMonth.
    rewrite Ny, Nm, Py, Pm, !full_year_Date_new.
    rewrite (full_year_id (y + (m + 1) / 12)) by (Z.div_mod_to_equations; lia).
    rewrite (full_year_id (y + (m - 1) / 12)) by (Z.div_mod_to_equations; lia).
    assert (E : forall a b, a + b / 12 = y + m / 12 -> b mod 12 = m mod 12 ->
                MakeDay a b 1 = MakeDay y m 1).
    { intros a b H1 H2. unfold MakeDay. rewrite H1, H2. reflexivity. }
    rewrite (E (y + (m + 1) / 12) ((m + 1) mod 12 - 1))
      by (clear -Hm; Z.div_mod_to_equations; lia).
    rewrite (E (y + (m - 1) / 12) ((m - 1) mod 12 + 1))
      by (clear -Hm; Z.div_mod_to_equations; lia).
    rewrite Hc. repeat split; assumption.
Qed.
End NavigationFacts.

(** From January 2025. *)
Lemma navigation_spec_witness :
  (-270000 <= Calendar.getFullYear 20103 <= 270000)%Z /\
  exists d', Navigation.nextMonth (Some 20103%Z) = Some d' /\
    Calendar.getMonth d' = 1%Z /\ Calendar.getDate d' = 1%Z.
Proof.
  assert (H : (-270000 <= Calendar.getFullYear 20103 <= 270000)%Z)
    by (vm_compute; split; discriminate).
  split; [exact H|].
  destruct (proj1 (navigation_spec 20103 H)) as (d' & Hn & _ & Hm & Hd).
  exists d'. split; [exact Hn|]. split; [exact Hm|exact Hd].
Defined.

(** ** The month grid in any year *)

Section GridFacts.
Import JSDate JSString Calendar Navigation.
Local Open Scope Z_scope.

(** In a year from 0 to 99 the calendar counts the days of the month of
    year 1900 + year. *)
Lemma getDaysInMonth_full_year t :
  let y := getFullYear t in
  let m := getMonth t in
  -270000 <= y <= 270000 ->
  getDaysInMonth t = Some (days_in_month (full_year y) m, zeller (full_year y) m 1).
Proof.
  intros y m Hr. unfold getDaysInMonth. fold y. fold m.
  assert (Hm : 0 <= m <= 11) by apply MonthFromTime_range.
  rewrite !full_year_Date_new.
  pose proof (full_year_range y Hr) as Hf.
  rewrite MakeDay_last, MakeDay_first by exact Hm.
  pose proof (days_in_month_pos (full_year y) m) as Hd.
  pose proof (MonthStart_bounds (full_year y) m Hm) as Hs.
  assert (Hb : -99500000 <= DayFromYear (full_year y) <= 99000000).
  { unfold DayFromYear. Z.div_mod_to_equations. lia. }
  unfold TimeClip.
  destruct (Z.leb_spec (Z.abs (DayFromYear (full_year y)
                               + MonthStart (LeapDay (full_year y)) m + 1 - 1)) 100000000);
    [|lia].
  destruct (Z.leb_spec (Z.abs (DayFromYear (full_year y)
                               + MonthStart (LeapDay (full_year y)) m
                               + days_in_month (full_year y) m - 1)) 100000000); [|lia].
  f_equal. f_equal.
  - unfold getDate. apply (civil_roundtrip (full_year y) m (days_in_month (full_year y) m)); lia.
  - unfold getDay. rewrite <- MakeDay_first by exact Hm. apply zeller_ok, Hm.
Qed.

Lemma zeller_range y m q : 0 <= zeller y m q <= 6.
Proof. unfold zeller. cbv zeta. match goal with |- _ <= ?a mod 7 <= _ => pose proof (Z.mod_pos_bound a 7) end. lia. Qed.

Lemma string_app_inv_head (p a b : string) : (p ++ a = p ++ b)%string -> a = b.
Proof.
  induction p as [|c p IH]; cbn [String.append]; [tauto|].
  intros H. injection H as H. apply IH, H.
Qed.

Lemma padded_day_inj (i j : nat) :
  (i < 99)%nat -> (j < 99)%nat ->
  padStart 2 "0" (ToString (Z.of_nat i + 1)) = padStart 2 "0" (ToString (Z.of_nat j + 1)) ->
  i = j.
Proof.
  intros Hi Hj. rewrite !padStart_two_digits by lia. unfold two_digits.
  intros H. injection H as H1 H0.
  assert (D : forall a b, 0 <= a <= 9 -> 0 <= b <= 9 -> digit a = digit b -> a = b).
  { intros a b Ha Hb E. unfold digit in E.
    apply (f_equal nat_of_ascii) in E.
    rewrite !nat_ascii_embedding in E by lia. lia. }
  apply D in H1; [|pose proof (Z.mod_pos_bound ((Z.of_nat i + 1) / 10) 10); lia
                  |pose proof (Z.mod_pos_bound ((Z.of_nat j + 1) / 10) 10); lia].
  apply D in H0; [|pose proof (Z.mod_pos_bound (Z.of_nat i + 1) 10); lia
                  |pose proof (Z.mod_pos_bound (Z.of_nat j + 1) 10); lia].
  revert H1 H0. Z.div_mod_to_equations. lia.
Qed.

Lemma cell_dateStr_inj currentDate (i j : nat) :
  (i < 99)%nat -> (j < 99)%nat ->
  PlanForm.cell_dateStr currentDate i = PlanForm.cell_dateStr currentDate j -> i = j.
Proof.
  intros Hi Hj. rewrite !cell_dateStr_eq. intros H.
  do 4 apply string_app_inv_head in H. apply padded_day_inj; assumption.
Qed.

(** [find] gives the first element that passes, and nothing only when
    none passes. *)
Lemma find_first {A} (f : A -> bool) (l : list A) (x : A) :
  List.find f l = Some x <->
  exists before after, l = before ++ x :: after /\ f x = true /\
    forall y, In y before -> f y = false.
Proof.
  induction l as [|a l IH]; cbn [List.find].
  - split; [discriminate|]. intros (b & r & H & _). destruct b; discriminate.
  - destruct (f a) eqn:E.
    + split.
      * intros [= <-]. exists [], l. split; [reflexivity|]. split; [exact E|intros y []].
      * intros ([|b0 b] & r & H & Hx & Hb).
        -- injection H as -> _. reflexivity.
        -- injection H as -> _. rewrite (Hb b0 (or_introl eq_refl)) in E. discriminate.
    + rewrite IH. split.
      * intros (b & r & -> & Hx & Hb). exists (a :: b), r. split; [reflexivity|].
        split; [exact Hx|]. intros y [<-|Hy]; [exact E|apply Hb, Hy].
      * intros ([|b0 b] & r & H & Hx & Hb).
        -- injection H as -> _. rewrite Hx in E. discriminate.
        -- injection H as _ ->. exists b, r. split; [reflexivity|].
           split; [exact Hx|]. intros y Hy. apply Hb. right. exact Hy.
Qed.

Lemma find_nothing {A} (f : A -> bool) (l : list A) :
  List.find f l = None <-> forall y, In y l -> f y = false.
Proof.
  split; [intros H y Hy; exact (find_none f l H y Hy)|].
  intros H. destruct (List.find f l) as [x|] eqn:E; [|reflexivity].
  apply find_some in E as [Hin Hx]. rewrite (H x Hin) in Hx. discriminate.
Qed.

(** X19. The grid of any month within 270000 years of the epoch: at most
    6 blank cells, then 28 to 31 day cells numbered from 1, as many as the
    month has days and as many blanks as the weekday of its first day, for the
    year as [new Date] reads it (1900 + year for a year from 0 to 99). The day
    cells of a month carry pairwise distinct date strings, whatever the year
    prints as. A cell is marked with exactly the planned sessions dated with
    its string, in their order, and with the first log dated with it, with no
    log exactly when no log is dated with it; so no planned session and no log
    is shown on two days of the month. *)
Theorem grid_shape (currentDate : Z) (dailyLogs : list DailyLog)
    (plannedSessions : list PlannedSession) :
  let y := getFullYear currentDate in
  let m := getMonth currentDate in
  let key := PlanForm.cell_dateStr currentDate in
  let shown := PlanForm.shown_on currentDate dailyLogs plannedSessions in
  -270000 <= y <= 270000 ->
  exists blanks days : nat,
    grid currentDate dailyLogs plannedSessions
    = Some (map Blank (seq 0 blanks) ++
            map (fun i => DayCell (Z.of_nat i + 1) (key i) (fst (shown i)) (snd (shown i)))
                (seq 0 days)) /\
    Z.of_nat blanks = zeller (full_year y) m 1 /\
    Z.of_nat days = days_in_month (full_year y) m /\
    (blanks <= 6)%nat /\ (28 <= days <= 31)%nat /\
    (forall i j, (i < days)%nat -> (j < days)%nat -> key i = key j -> i = j) /\
    (forall i p, In p (snd (shown i)) <-> In p plannedSessions /\ planned_date p = key i) /\
    (forall i, sublist (snd (shown i)) plannedSessions) /\
    (forall i l, fst (shown i) = Some l <->
       exists before after, dailyLogs = before ++ l :: after /\ log_date l = key i /\
         forall l', In l' before -> log_date l' <> key i) /\
    (forall i, fst (shown i) = None <->
       forall l, In l dailyLogs -> log_date l <> key i) /\
    (forall i j p, (i < days)%nat -> (j < days)%nat ->
       In p (snd (shown i)) -> In p (snd (shown j)) -> i = j) /\
    (forall i j l, (i < days)%nat -> (j < days)%nat ->
       fst (shown i) = Some l -> fst (shown j) = Some l -> i = j).
Proof.
  intros y m key shown Hr.
  pose proof (getDaysInMonth_full_year currentDate Hr) as Hg. fold y m in Hg.
  pose proof (zeller_range (full_year y) m 1) as Hz.
  pose proof (days_in_month_pos (full_year y) m) as Hd.
  exists (Z.to_nat (zeller (full_year y) m 1)), (Z.to_nat (days_in_month (full_year y) m)).
  assert (Hinj : forall i j, (i < Z.to_nat (days_in_month (full_year y) m))%nat ->
            (j < Z.to_nat (days_in_month (full_year y) m))%nat -> key i = key j -> i = j).
  { intros i j Hi Hj. apply cell_dateStr_inj; lia. }
  assert (Hp : forall i p,
            In p (snd (shown i)) <-> In p plannedSessions /\ planned_date p = key i).
  { intros i p. unfold shown, PlanForm.shown_on, day_cell, getActivityForDate. cbn [snd].
    rewrite filter_In, String.eqb_eq. reflexivity. }
  assert (Hl : forall i l, fst (shown i) = Some l <->
            exists before after, dailyLogs = before ++ l :: after /\ log_date l = key i /\
              forall l', In l' before -> log_date l' <> key i).
  { intros i l. unfold shown, PlanForm.shown_on, day_cell, getActivityForDate. cbn [fst].
    rewrite find_first. 
    split; intros (b & r & H & Hx & Hb); exists b, r; (split; [exact H|]).
    - split; [apply String.eqb_eq, Hx|]. intros l' Hl'. apply String.eqb_neq, Hb, Hl'.
    - split; [apply String.eqb_eq, Hx|]. intros l' Hl'. apply String.eqb_neq, Hb, Hl'. }
  split; [unfold grid; rewrite Hg; reflexivity|].
  split; [lia|]. split; [lia|]. split; [lia|]. split; [lia|].
  split; [exact Hinj|]. split; [exact Hp|]. split.
  { intros i. unfold shown, PlanForm.shown_on, day_cell, getActivityForDate. cbn [snd].
    apply filter_sublist. }
  split; [exact Hl|]. split.
  { intros i. unfold shown, PlanForm.shown_on, day_cell, getActivityForDate. cbn [fst].
    rewrite find_nothing. split; intros H l Hin.
    - apply String.eqb_neq, H, Hin.
    - apply String.eqb_neq, H, Hin. }
  split.
  - intros i j p Hi Hj H1 H2. apply Hp in H1 as [_ H1]. apply Hp in H2 as [_ H2].
    apply Hinj; congruence.
  - intros i j l Hi Hj H1 H2.
    apply Hl in H1 as (_ & _ & _ & H1 & _). apply Hl in H2 as (_ & _ & _ & H2 & _).
    apply Hinj; congruence.
Qed.
(** December of the year 99 is laid out as December 1999. *)
Lemma grid_shape_witness :
  -270000 <= getFullYear (MakeDay 99 11 1) <= 270000 /\
  exists blanks days : nat,
    Z.of_nat blanks = zeller 1999 11 1 /\ Z.of_nat days = days_in_month 1999 11.
Proof.
  assert (H : -270000 <= getFullYear (MakeDay 99 11 1) <= 270000)
    by (vm_compute; split; discriminate).
  split; [exact H|].
  destruct (grid_shape (MakeDay 99 11 1) [] [] H) as (b & n & _ & Hb & Hn & _).
  exists b, n. split; [exact Hb|exact Hn].
Defined.
End GridFacts.

(** ** The plan-session form *)

Section PlanFormFacts.
Import View Effects PlanForm JSString Calendar.
Variable env : Env.




End PlanFormFacts.

